(** * Report generator (src/report_generator.py): block assembly, table
      builder, style registry and page decoration.

    The Python module is embedded shallowly.  ReportLab itself is an external
    collaborator: its flowables are constructors of [Flowable], its canvas is
    a record with a drawing log and a graphics-state stack, and
    [SimpleDocTemplate.build] is the record [BuiltDoc] handed to it.
    Python floats are idealised as rationals ([Q]); the wall-clock date read
    by [datetime.now().strftime("%B %d, %Y")] is a parameter [today]. *)

From stdpp Require Import base option list gmap strings pretty.
From Stdlib Require Import Ascii String QArith.

Set Default Proof Using "Type".

Local Open Scope string_scope.
Local Open Scope list_scope.

(** ** Python results: a value or a raised exception *)

Inductive PyError :=
| TypeError (msg : string)
| KeyError (key : string)
| IndexError (msg : string)
| ZeroDivisionError.

Inductive result (A : Type) :=
| Ok (a : A)
| Raise (e : PyError).
Arguments Ok {A} a.
Arguments Raise {A} e.

(** State-and-exception computations: the state is the object a function
    mutates (the [story] list of a generator, the canvas of a page
    callback). *)
Record M (S A : Type) := mkM { run : S -> result (A * S) }.
Arguments mkM {S A} run.
Arguments run {S A} m s.

Class PyMonad (m : Type -> Type) := {
  ret : forall {A}, A -> m A;
  bind : forall {A B}, m A -> (A -> m B) -> m B;
  raise : forall {A}, PyError -> m A
}.

#[global] Instance result_monad : PyMonad result := {|
  ret := fun A a => Ok a;
  bind := fun A B r k => match r with Ok a => k a | Raise e => Raise e end;
  raise := fun A e => Raise e
|}.

#[global] Instance M_monad (S : Type) : PyMonad (M S) := {|
  ret := fun A a => mkM (fun s => Ok (a, s));
  bind := fun A B m k =>
    mkM (fun s => match run m s with
                  | Ok (a, s') => run (k a) s'
                  | Raise e => Raise e
                  end);
  raise := fun A e => mkM (fun _ => Raise e)
|}.

(** A pure, possibly raising, sub-computation run inside a stateful one. *)
Definition lift {S A} (r : result A) : M S A :=
  mkM (fun s => match r with Ok a => Ok (a, s) | Raise e => Raise e end).

Definition modify {S} (f : S -> S) : M S unit := mkM (fun s => Ok (tt, f s)).

Declare Scope py_scope.
Delimit Scope py_scope with py.
Notation "x <- m ;; k" := (bind m (fun x => k))
  (at level 100, m at next level, right associativity) : py_scope.
Notation "m ;; k" := (bind m (fun _ => k))
  (at level 100, right associativity) : py_scope.
Local Open Scope py_scope.

(** [if c: body] with no else branch. *)
Definition when {S} (c : bool) (body : M S unit) : M S unit :=
  if c then body else ret tt.

(** [for x in xs: body x] over a list. *)
Fixpoint for_each {S A} (xs : list A) (body : A -> M S unit) : M S unit :=
  match xs with
  | [] => ret tt
  | x :: xs' => body x ;; for_each xs' body
  end.

(** A list comprehension [[f x for x in xs]] whose element expression may
    raise. *)
Fixpoint comprehension {A B} (f : A -> result B) (xs : list A) : result (list B) :=
  match xs with
  | [] => ret []
  | x :: xs' => y <- f x ;; ys <- comprehension f xs' ;; ret (y :: ys)
  end.

(** Iterating a value that may be [None]: Python raises
    [TypeError: 'NoneType' object is not iterable]. *)
Definition iter {S A} (v : option (list A)) : M S (list A) :=
  match v with
  | Some l => ret l
  | None => raise (TypeError "'NoneType' object is not iterable")
  end.

(** Python truthiness ([if x:]) of the values tested in this module. *)
Class Truthy (A : Type) := truthy : A -> bool.

#[global] Instance truthy_str : Truthy string :=
  fun s => match s with EmptyString => false | String _ _ => true end.

#[global] Instance truthy_list {A} : Truthy (list A) :=
  fun l => match l with [] => false | _ :: _ => true end.

(** [xs or []] *)
Definition or_empty {A} (v : option (list A)) : list A :=
  match v with
  | Some l => if truthy l then l else []
  | None => []
  end.

(** [d.get(key, default)] on a dict whose key may be absent: a field of the
    records below is [None] when the key is missing. *)
Definition dict_get {A} (field : option A) (default : A) : A :=
  match field with Some v => v | None => default end.

(** ** Units and colour palette *)

Definition inch : Q := 72.
Definition cm : Q := inch / (254 # 100).

Inductive Color := HexColor (rgb : Z).

Definition BRAND_DARK := HexColor 0x1A237E.
Definition BRAND_MID := HexColor 0x3949AB.
Definition BRAND_ACCENT := HexColor 0x42A5F5.
Definition BRAND_LIGHT := HexColor 0xE3F2FD.
Definition GREY_DARK := HexColor 0x424242.
Definition GREY_MID := HexColor 0x757575.
Definition GREY_LIGHT := HexColor 0xF5F5F5.
Definition WHITE := HexColor 0xFFFFFF.
Definition BLACK := HexColor 0x000000.

(** ** Style factory *)

Inductive Alignment := TA_LEFT | TA_CENTER | TA_RIGHT.

(** [ParagraphStyle(name, parent=base["Normal"], ...)]: the attributes a
    call does not pass are inherited from the parent and are [None] here. *)
Record ParagraphStyle := mkStyle {
  style_name : string;
  parent : string;
  fontSize : Z;
  fontName : string;
  textColor : Color;
  alignment : option Alignment;
  leading : option Z;
  leftIndent : option Z;
  bulletIndent : option Z;
  spaceBefore : option Z;
  spaceAfter : option Z
}.

(** The nine [ParagraphStyle(...)] objects constructed by [_build_styles],
    in the order of the source. *)
Definition Title_style : ParagraphStyle :=
  {| style_name := "ReportTitle"; parent := "Normal";
     fontSize := 28; fontName := "Helvetica-Bold"; textColor := WHITE;
     alignment := Some TA_CENTER; leading := None; leftIndent := None;
     bulletIndent := None; spaceBefore := None; spaceAfter := Some 6%Z |}.

Definition Subtitle_style : ParagraphStyle :=
  {| style_name := "ReportSubtitle"; parent := "Normal";
     fontSize := 14; fontName := "Helvetica"; textColor := BRAND_ACCENT;
     alignment := Some TA_CENTER; leading := None; leftIndent := None;
     bulletIndent := None; spaceBefore := None; spaceAfter := Some 4%Z |}.

Definition H1_style : ParagraphStyle :=
  {| style_name := "H1"; parent := "Normal";
     fontSize := 18; fontName := "Helvetica-Bold"; textColor := BRAND_DARK;
     alignment := None; leading := None; leftIndent := None;
     bulletIndent := None; spaceBefore := Some 16%Z; spaceAfter := Some 8%Z |}.

Definition H2_style : ParagraphStyle :=
  {| style_name := "H2"; parent := "Normal";
     fontSize := 14; fontName := "Helvetica-Bold"; textColor := BRAND_MID;
     alignment := None; leading := None; leftIndent := None;
     bulletIndent := None; spaceBefore := Some 12%Z; spaceAfter := Some 6%Z |}.

Definition H3_style : ParagraphStyle :=
  {| style_name := "H3"; parent := "Normal";
     fontSize := 11; fontName := "Helvetica-Bold"; textColor := GREY_DARK;
     alignment := None; leading := None; leftIndent := None;
     bulletIndent := None; spaceBefore := Some 8%Z; spaceAfter := Some 4%Z |}.

Definition Body_style : ParagraphStyle :=
  {| style_name := "Body"; parent := "Normal";
     fontSize := 10; fontName := "Helvetica"; textColor := GREY_DARK;
     alignment := None; leading := Some 14%Z; leftIndent := None;
     bulletIndent := None; spaceBefore := None; spaceAfter := Some 6%Z |}.

Definition Bullet_style : ParagraphStyle :=
  {| style_name := "Bullet"; parent := "Normal";
     fontSize := 10; fontName := "Helvetica"; textColor := GREY_DARK;
     alignment := None; leading := Some 14%Z; leftIndent := Some 20%Z;
     bulletIndent := Some 10%Z; spaceBefore := None; spaceAfter := Some 3%Z |}.

Definition Caption_style : ParagraphStyle :=
  {| style_name := "Caption"; parent := "Normal";
     fontSize := 9; fontName := "Helvetica-Oblique"; textColor := GREY_MID;
     alignment := Some TA_CENTER; leading := None; leftIndent := None;
     bulletIndent := None; spaceBefore := None; spaceAfter := Some 6%Z |}.

Definition Footer_style : ParagraphStyle :=
  {| style_name := "Footer"; parent := "Normal";
     fontSize := 8; fontName := "Helvetica"; textColor := GREY_MID;
     alignment := Some TA_CENTER; leading := None; leftIndent := None;
     bulletIndent := None; spaceBefore := None; spaceAfter := None |}.

(** The Python heap, as far as this module allocates dicts in it: a finite
    map from object identities to style dictionaries. *)
Abbreviation loc := nat (only parsing).
Abbreviation Heap := (gmap nat (gmap string ParagraphStyle)) (only parsing).

(** [styles = {}] allocates a new dict object. *)
Definition new_dict (h : Heap) : loc * Heap :=
  let l := fresh (dom h) in (l, <[l := ∅]> h).

(** [styles[key] = value] mutates the dict object in place. *)
Definition setitem (l : loc) (key : string) (v : ParagraphStyle) (h : Heap) : Heap :=
  alter (insert key v) l h.

Definition _build_styles (h : Heap) : loc * Heap :=
  let '(styles, h) := new_dict h in
  let h := setitem styles "Title" Title_style h in
  let h := setitem styles "Subtitle" Subtitle_style h in
  let h := setitem styles "H1" H1_style h in
  let h := setitem styles "H2" H2_style h in
  let h := setitem styles "H3" H3_style h in
  let h := setitem styles "Body" Body_style h in
  let h := setitem styles "Bullet" Bullet_style h in
  let h := setitem styles "Caption" Caption_style h in
  let h := setitem styles "Footer" Footer_style h in
  (styles, h).

(** The dictionary a caller holds after [styles = _build_styles()]. *)
Definition built_styles : gmap string ParagraphStyle :=
  let '(l, h) := _build_styles ∅ in default ∅ (h !! l).

(** [styles[key]] *)
Definition getitem (d : gmap string ParagraphStyle) (key : string) : result ParagraphStyle :=
  match d !! key with
  | Some v => Ok v
  | None => Raise (KeyError key)
  end.

(** ** Strings *)

Definition newline : string := String "010"%char EmptyString.

(** [s.replace(old, new)] for a non-empty [old]: occurrences are replaced
    left to right and do not overlap; [skip] counts the characters of a
    matched occurrence still to be dropped. *)
Fixpoint replace_from (old new s : string) (skip : nat) : string :=
  match s with
  | EmptyString => EmptyString
  | String c s' =>
      match skip with
      | S k => replace_from old new s' k
      | O =>
          if String.prefix old s
          then new ++ replace_from old new s' (String.length old - 1)
          else String c (replace_from old new s' 0)
      end
  end.

Definition str_replace (s old new : string) : string := replace_from old new s 0.

(** Table cells are [Any] in the source and are stringified with [str]. *)
Inductive Cell := CStr (s : string) | CInt (z : Z).

Definition py_str (c : Cell) : string :=
  match c with
  | CStr s => s
  | CInt z => pretty z
  end.

(** ** ReportLab flowables *)

Inductive TArg :=
| AColor (c : Color)
| ANum (q : Q)
| AName (s : string)
| AColors (cs : list Color).

(** One [TableStyle] command: [(name, (col, row), (col, row), args...)]. *)
Record TableCmd := mkCmd {
  cmd_name : string;
  cell_from : Z * Z;
  cell_to : Z * Z;
  cmd_args : list TArg
}.

#[warnings="-register-all"] Inductive Flowable :=
| Paragraph (text : string) (style : ParagraphStyle)
| Spacer (width height : Q)
| HRFlowable (width : string) (color : Color) (thickness : Q)
| PageBreak
| Table (data : list (list Flowable)) (colWidths : list Q)
        (repeatRows : Z) (tstyle : list TableCmd).

(** ** Table builder helper *)

(** Python's [/]: a zero divisor raises. *)
Definition py_div (a b : Q) : result Q :=
  if Qeq_bool b 0 then Raise ZeroDivisionError else Ok (a / b)%Q.

Definition table_style : list TableCmd :=
  [ mkCmd "BACKGROUND" (0, 0)%Z (-1, 0)%Z [AColor BRAND_DARK];
    mkCmd "TEXTCOLOR" (0, 0)%Z (-1, 0)%Z [AColor WHITE];
    mkCmd "FONTNAME" (0, 0)%Z (-1, 0)%Z [AName "Helvetica-Bold"];
    mkCmd "FONTSIZE" (0, 0)%Z (-1, 0)%Z [ANum 10];
    mkCmd "BOTTOMPADDING" (0, 0)%Z (-1, 0)%Z [ANum 8];
    mkCmd "TOPPADDING" (0, 0)%Z (-1, 0)%Z [ANum 8];
    mkCmd "BACKGROUND" (0, 1)%Z (-1, -1)%Z [AColor WHITE];
    mkCmd "ROWBACKGROUNDS" (0, 1)%Z (-1, -1)%Z [AColors [WHITE; BRAND_LIGHT]];
    mkCmd "FONTNAME" (0, 1)%Z (-1, -1)%Z [AName "Helvetica"];
    mkCmd "FONTSIZE" (0, 1)%Z (-1, -1)%Z [ANum 9];
    mkCmd "TOPPADDING" (0, 1)%Z (-1, -1)%Z [ANum 5];
    mkCmd "BOTTOMPADDING" (0, 1)%Z (-1, -1)%Z [ANum 5];
    mkCmd "LEFTPADDING" (0, 0)%Z (-1, -1)%Z [ANum 8];
    mkCmd "RIGHTPADDING" (0, 0)%Z (-1, -1)%Z [ANum 8];
    mkCmd "GRID" (0, 0)%Z (-1, -1)%Z [ANum (5 # 10); AColor (HexColor 0xBDBDBD)];
    mkCmd "LINEBELOW" (0, 0)%Z (-1, 0)%Z [ANum (15 # 10); AColor BRAND_MID] ].

Definition _build_pdf_table (headers : list string) (rows : list (list Cell))
    (col_widths : option (list Q)) (page_width : Q) : result Flowable :=
  let styles := built_styles in
  col_widths <-
    match col_widths with
    | None =>
        let n := Nat.max (List.length headers) 1 in
        w <- py_div page_width (inject_Z (Z.of_nat n)) ;;
        ret (repeat w n)
    | Some ws => ret ws
    end ;;
  header_cells <-
    comprehension
      (fun h => st <- getitem styles "Body" ;;
                ret (Paragraph ("<b>" ++ h ++ "</b>") st))
      headers ;;
  body_rows <-
    comprehension
      (fun row =>
         comprehension
           (fun cell => st <- getitem styles "Body" ;;
                        ret (Paragraph (py_str cell) st))
           row)
      rows ;;
  let data := header_cells :: body_rows in
  ret (Table data col_widths 1 table_style).

(** ** Page template callbacks *)

Record GState := mkGState {
  fillColor : Color;
  fontFace : string;
  fontPt : Q
}.

(** What a canvas call leaves on the page: the state markers and the
    drawing operators, each with the graphics state it was drawn in. *)
Inductive DrawOp :=
| op_save
| op_restore
| op_rect (x y w h : Q) (fill stroke : Z) (gs : GState)
| op_drawString (x y : Q) (text : string) (gs : GState)
| op_drawRightString (x y : Q) (text : string) (gs : GState)
| op_drawCentredString (x y : Q) (text : string) (gs : GState).

Record Canvas := mkCanvas {
  gstate : GState;
  saved : list GState;
  page_ops : list DrawOp
}.

Definition emit (op : GState -> DrawOp) : M Canvas unit :=
  modify (fun c => mkCanvas (gstate c) (saved c) (page_ops c ++ [op (gstate c)])).

Definition saveState : M Canvas unit :=
  modify (fun c => mkCanvas (gstate c) (gstate c :: saved c) (page_ops c ++ [op_save])).

Definition restoreState : M Canvas unit :=
  mkM (fun c =>
    match saved c with
    | [] => Raise (IndexError "pop from empty list")
    | gs :: rest => Ok (tt, mkCanvas gs rest (page_ops c ++ [op_restore]))
    end).

Definition setFillColor (col : Color) : M Canvas unit :=
  modify (fun c =>
    mkCanvas (mkGState col (fontFace (gstate c)) (fontPt (gstate c)))
             (saved c) (page_ops c)).

Definition setFont (face : string) (size : Q) : M Canvas unit :=
  modify (fun c =>
    mkCanvas (mkGState (fillColor (gstate c)) face size) (saved c) (page_ops c)).

Definition canvas_rect (x y w h : Q) (fill stroke : Z) : M Canvas unit :=
  emit (op_rect x y w h fill stroke).
Definition drawString (x y : Q) (text : string) : M Canvas unit :=
  emit (op_drawString x y text).
Definition drawRightString (x y : Q) (text : string) : M Canvas unit :=
  emit (op_drawRightString x y text).
Definition drawCentredString (x y : Q) (text : string) : M Canvas unit :=
  emit (op_drawCentredString x y text).

(** The [doc] argument of a page callback. *)
Record Doc := mkDoc {
  doc_pagesize : Q * Q;
  page : Z
}.

Record _PageTemplate := mkPageTemplate {
  pt_title : string;
  pt_author : string;
  show_header : bool;
  show_footer : bool
}.

(** [_PageTemplate(title, author)], both flags at their default [True]. *)
Definition _PageTemplate_init (title author : string) : _PageTemplate :=
  mkPageTemplate title author true true.

(** [_PageTemplate.__call__(self, canvas, doc)]; [today] is the date string
    read from the clock. *)
Definition _PageTemplate_call (self : _PageTemplate) (today : string) (doc : Doc)
  : M Canvas unit :=
  saveState ;;
  let '(w, h) := doc_pagesize doc in
  when (show_header self && (1 <? page doc)%Z) (
    setFillColor BRAND_DARK ;;
    canvas_rect 0 (h - (12 # 10) * cm) w ((12 # 10) * cm) 1 0 ;;
    setFillColor WHITE ;;
    setFont "Helvetica-Bold" 9 ;;
    drawString ((15 # 10) * cm) (h - (8 # 10) * cm) (pt_title self) ;;
    setFont "Helvetica" 9 ;;
    drawRightString (w - (15 # 10) * cm) (h - (8 # 10) * cm) (pt_author self)
  ) ;;
  when (show_footer self) (
    setFillColor GREY_LIGHT ;;
    canvas_rect 0 0 w ((9 # 10) * cm) 1 0 ;;
    setFillColor GREY_MID ;;
    setFont "Helvetica" 8 ;;
    let date_str := today in
    drawString ((15 # 10) * cm) ((3 # 10) * cm) date_str ;;
    drawCentredString (w / 2) ((3 # 10) * cm) "CONFIDENTIAL" ;;
    drawRightString (w - (15 # 10) * cm) ((3 # 10) * cm)
                    ("Page " ++ pretty (page doc))
  ) ;;
  restoreState.

(** ** Public API *)

(** A section dict: [{"heading": str, "body": str, "bullets": list,
    "level": int}], every key optional. *)
Record SectionDict := mkSection {
  sec_heading : option string;
  sec_body : option string;
  sec_bullets : option (list string);
  sec_level : option Z
}.

(** A table dict: [{"heading": str, "headers": list, "rows": list[list],
    "caption": str}], every key optional. *)
Record TableDict := mkTableDict {
  tbl_heading : option string;
  tbl_headers : option (list string);
  tbl_rows : option (list (list Cell));
  tbl_caption : option string
}.

Record SimpleDocTemplate := mkDocTemplate {
  filename : string;
  pagesize : Q * Q;
  leftMargin : Q;
  rightMargin : Q;
  topMargin : Q;
  bottomMargin : Q
}.

(** The arguments of [doc.build(story, onFirstPage=..., onLaterPages=...)],
    which is where ReportLab takes over. *)
Record BuiltDoc := mkBuilt {
  built_template : SimpleDocTemplate;
  built_story : list Flowable;
  onFirstPage : _PageTemplate;
  onLaterPages : _PageTemplate
}.

Definition doc_build (doc : SimpleDocTemplate) (title author : string)
  : M (list Flowable) BuiltDoc :=
  mkM (fun story =>
    Ok (mkBuilt doc story (_PageTemplate_init title author)
                          (_PageTemplate_init title author), story)).

(** [story.append(x)] *)
Definition append (x : Flowable) : M (list Flowable) unit :=
  modify (fun story => story ++ [x]).

(** [Paragraph(text, styles[key])] appended to the story. *)
Definition append_paragraph (styles : gmap string ParagraphStyle)
    (text key : string) : M (list Flowable) unit :=
  st <- lift (getitem styles key) ;;
  append (Paragraph text st).

Definition mm : Q := cm * (1 # 10).
Definition A4 : Q * Q := (210 * mm, 297 * mm)%Q.

(** The body of the section loop; [gap] is the height of the closing
    spacer, the one number in which the two copies of the loop differ. *)
Definition section_body (styles : gmap string ParagraphStyle) (gap : Q)
    (sec : SectionDict) : M (list Flowable) unit :=
  let heading := dict_get (sec_heading sec) "" in
  let body := dict_get (sec_body sec) "" in
  let bullets := dict_get (sec_bullets sec) [] in
  let level := dict_get (sec_level sec) 1%Z in
  heading_style <- lift (if (level =? 1)%Z then getitem styles "H1"
                         else getitem styles "H2") ;;
  when (truthy heading) (
    append (Paragraph heading heading_style) ;;
    append (HRFlowable "100%"
              (if (level =? 1)%Z then BRAND_ACCENT else GREY_LIGHT) 1) ;;
    append (Spacer 1 ((2 # 10) * cm))
  ) ;;
  when (truthy body) (
    let body_html := str_replace body newline "<br/>" in
    append_paragraph styles body_html "Body"
  ) ;;
  for_each bullets (fun bullet =>
    append_paragraph styles ("• " ++ bullet) "Bullet") ;;
  append (Spacer 1 (gap * cm)).

(** The body of the table loop; [gap] as above. *)
Definition table_body (styles : gmap string ParagraphStyle) (usable_w gap : Q)
    (tbl_def : TableDict) : M (list Flowable) unit :=
  let heading := dict_get (tbl_heading tbl_def) "" in
  let headers := dict_get (tbl_headers tbl_def) [] in
  let rows := dict_get (tbl_rows tbl_def) [] in
  let caption := dict_get (tbl_caption tbl_def) "" in
  when (truthy heading) (
    append_paragraph styles heading "H1" ;;
    append (HRFlowable "100%" BRAND_ACCENT 1) ;;
    append (Spacer 1 ((2 # 10) * cm))
  ) ;;
  when (truthy headers && truthy rows) (
    tbl <- lift (_build_pdf_table headers rows None usable_w) ;;
    append tbl
  ) ;;
  when (truthy caption) (
    append (Spacer 1 ((15 # 100) * cm)) ;;
    append_paragraph styles caption "Caption"
  ) ;;
  append (Spacer 1 (gap * cm)).

Definition make_doc (output_path : string) (page_size : Q * Q) : SimpleDocTemplate :=
  mkDocTemplate output_path page_size (2 * cm) (2 * cm) ((25 # 10) * cm) (2 * cm).

Definition finish {A} (output_path : string) (r : result (A * list Flowable))
  : result (string * A) :=
  match r with
  | Ok (a, _) => Ok (output_path, a)
  | Raise e => Raise e
  end.

(** [generate_text_report(title, sections, output_path, author, subtitle,
    page_size)].  [sections] is whatever the caller passes, [None]
    included; the result is the returned path together with what was
    handed to [doc.build]. *)
Definition generate_text_report (today : string) (title : string)
    (sections : option (list SectionDict)) (output_path : string)
    (author subtitle : string) (page_size : Q * Q) : result (string * BuiltDoc) :=
  let styles := built_styles in
  let doc := make_doc output_path page_size in
  finish output_path (run (
    append (Spacer 1 (2 * cm)) ;;
    append_paragraph styles title "Title" ;;
    when (truthy subtitle) (
      append (Spacer 1 ((3 # 10) * cm)) ;;
      append_paragraph styles subtitle "Subtitle"
    ) ;;
    append (Spacer 1 ((5 # 10) * cm)) ;;
    let date_line := today in
    let date_line := if truthy author then (author ++ "  ·  " ++ date_line)%string
                     else date_line in
    append_paragraph styles date_line "Caption" ;;
    append (HRFlowable "100%" BRAND_ACCENT 2) ;;
    append PageBreak ;;
    secs <- iter sections ;;
    for_each secs (section_body styles (3 # 10)) ;;
    doc_build doc title author
  ) []).

Definition generate_table_report (today : string) (title : string)
    (tables : option (list TableDict)) (output_path : string)
    (author intro : string) (page_size : Q * Q) : result (string * BuiltDoc) :=
  let styles := built_styles in
  let '(w, _h) := page_size in
  let usable_w := (w - 4 * cm)%Q in
  let doc := make_doc output_path page_size in
  finish output_path (run (
    append (Spacer 1 (2 * cm)) ;;
    append_paragraph styles title "Title" ;;
    let date_line := today in
    let date_line := if truthy author then (author ++ "  ·  " ++ date_line)%string
                     else date_line in
    append (Spacer 1 ((4 # 10) * cm)) ;;
    append_paragraph styles date_line "Caption" ;;
    append (HRFlowable "100%" BRAND_ACCENT 2) ;;
    append PageBreak ;;
    when (truthy intro) (
      append_paragraph styles (str_replace intro newline "<br/>") "Body" ;;
      append (Spacer 1 ((5 # 10) * cm))
    ) ;;
    tbls <- iter tables ;;
    for_each tbls (table_body styles usable_w (6 # 10)) ;;
    doc_build doc title author
  ) []).

Definition banner_style : list TableCmd :=
  [ mkCmd "BACKGROUND" (0, 0)%Z (-1, -1)%Z [AColor BRAND_DARK];
    mkCmd "TOPPADDING" (0, 0)%Z (-1, -1)%Z [ANum 18];
    mkCmd "BOTTOMPADDING" (0, 0)%Z (-1, -1)%Z [ANum 18];
    mkCmd "LEFTPADDING" (0, 0)%Z (-1, -1)%Z [ANum 20];
    mkCmd "RIGHTPADDING" (0, 0)%Z (-1, -1)%Z [ANum 20] ].

Definition generate_full_report (today : string) (title output_path : string)
    (author subtitle : string)
    (sections : option (list SectionDict)) (tables : option (list TableDict))
    (summary : string) (page_size : Q * Q) : result (string * BuiltDoc) :=
  let styles := built_styles in
  let '(w, _h) := page_size in
  let usable_w := (w - 4 * cm)%Q in
  let doc := make_doc output_path page_size in
  finish output_path (run (
    append (Spacer 1 ((15 # 10) * cm)) ;;
    title_style <- lift (getitem styles "Title") ;;
    let banner_data := [[Paragraph title title_style]] in
    let banner := Table banner_data [usable_w] 0 banner_style in
    append banner ;;
    when (truthy subtitle) (
      append (Spacer 1 ((4 # 10) * cm)) ;;
      append_paragraph styles subtitle "Subtitle"
    ) ;;
    append (Spacer 1 ((4 # 10) * cm)) ;;
    let date_line := today in
    let date_line := if truthy author
                     then ("Prepared by: " ++ author ++ "  ·  " ++ date_line)%string
                     else date_line in
    append_paragraph styles date_line "Caption" ;;
    append (HRFlowable "100%" BRAND_ACCENT 2) ;;
    append PageBreak ;;
    for_each (or_empty sections) (section_body styles (4 # 10)) ;;
    for_each (or_empty tables) (table_body styles usable_w (5 # 10)) ;;
    when (truthy summary) (
      append (HRFlowable "100%" BRAND_MID 1) ;;
      append_paragraph styles "Summary" "H1" ;;
      append_paragraph styles (str_replace summary newline "<br/>") "Body"
    ) ;;
    doc_build doc title author
  ) []).

(** ** Block groups, as the specification describes them

    These definitions follow the words of the specification (cover, the
    blocks of a section, the blocks of a table, the summary group) and are
    what the stories built by the code above are compared with. *)

Definition date_line_of (pre author today : string) : string :=
  if truthy author then (pre ++ author ++ "  ·  " ++ today)%string else today.

Definition subtitle_blocks (gap : Q) (subtitle : string) : list Flowable :=
  if truthy subtitle
  then [Spacer 1 (gap * cm); Paragraph subtitle Subtitle_style]
  else [].

Definition text_cover_blocks (today title author subtitle : string) : list Flowable :=
  [Spacer 1 (2 * cm); Paragraph title Title_style]
  ++ subtitle_blocks (3 # 10) subtitle
  ++ [Spacer 1 ((5 # 10) * cm);
      Paragraph (date_line_of "" author today) Caption_style;
      HRFlowable "100%" BRAND_ACCENT 2;
      PageBreak].

Definition table_cover_blocks (today title author : string) : list Flowable :=
  [Spacer 1 (2 * cm); Paragraph title Title_style;
   Spacer 1 ((4 # 10) * cm);
   Paragraph (date_line_of "" author today) Caption_style;
   HRFlowable "100%" BRAND_ACCENT 2;
   PageBreak].

Definition intro_blocks (intro : string) : list Flowable :=
  if truthy intro
  then [Paragraph (str_replace intro newline "<br/>") Body_style;
        Spacer 1 ((5 # 10) * cm)]
  else [].

Definition banner (title : string) (usable_w : Q) : Flowable :=
  Table [[Paragraph title Title_style]] [usable_w] 0 banner_style.

Definition full_cover_blocks (today title author subtitle : string) (usable_w : Q)
  : list Flowable :=
  [Spacer 1 ((15 # 10) * cm); banner title usable_w]
  ++ subtitle_blocks (4 # 10) subtitle
  ++ [Spacer 1 ((4 # 10) * cm);
      Paragraph (date_line_of "Prepared by: " author today) Caption_style;
      HRFlowable "100%" BRAND_ACCENT 2;
      PageBreak].

Definition section_heading_blocks (sec : SectionDict) : list Flowable :=
  let heading := dict_get (sec_heading sec) "" in
  let level := dict_get (sec_level sec) 1%Z in
  if truthy heading
  then [Paragraph heading (if (level =? 1)%Z then H1_style else H2_style);
        HRFlowable "100%" (if (level =? 1)%Z then BRAND_ACCENT else GREY_LIGHT) 1;
        Spacer 1 ((2 # 10) * cm)]
  else [].

Definition section_body_blocks (sec : SectionDict) : list Flowable :=
  let body := dict_get (sec_body sec) "" in
  if truthy body
  then [Paragraph (str_replace body newline "<br/>") Body_style]
  else [].

Definition section_bullet_blocks (sec : SectionDict) : list Flowable :=
  map (fun bullet => Paragraph ("• " ++ bullet) Bullet_style)
      (dict_get (sec_bullets sec) []).

Definition section_blocks (gap : Q) (sec : SectionDict) : list Flowable :=
  section_heading_blocks sec ++ section_body_blocks sec
  ++ section_bullet_blocks sec ++ [Spacer 1 (gap * cm)].

(** The table flowable built for [headers] and [rows] when the widths are
    auto-distributed over [page_width]. *)
Definition pdf_table (headers : list string) (rows : list (list Cell))
    (page_width : Q) : Flowable :=
  let n := Nat.max (List.length headers) 1 in
  Table (map (fun h => Paragraph ("<b>" ++ h ++ "</b>") Body_style) headers
         :: map (map (fun cell => Paragraph (py_str cell) Body_style)) rows)
        (repeat (page_width / inject_Z (Z.of_nat n))%Q n)
        1 table_style.

Definition table_heading_blocks (tbl_def : TableDict) : list Flowable :=
  let heading := dict_get (tbl_heading tbl_def) "" in
  if truthy heading
  then [Paragraph heading H1_style;
        HRFlowable "100%" BRAND_ACCENT 1;
        Spacer 1 ((2 # 10) * cm)]
  else [].

Definition table_grid_blocks (usable_w : Q) (tbl_def : TableDict) : list Flowable :=
  let headers := dict_get (tbl_headers tbl_def) [] in
  let rows := dict_get (tbl_rows tbl_def) [] in
  if truthy headers && truthy rows
  then [pdf_table headers rows usable_w]
  else [].

Definition table_caption_blocks (tbl_def : TableDict) : list Flowable :=
  let caption := dict_get (tbl_caption tbl_def) "" in
  if truthy caption
  then [Spacer 1 ((15 # 100) * cm); Paragraph caption Caption_style]
  else [].

Definition table_blocks (usable_w gap : Q) (tbl_def : TableDict) : list Flowable :=
  table_heading_blocks tbl_def ++ table_grid_blocks usable_w tbl_def
  ++ table_caption_blocks tbl_def ++ [Spacer 1 (gap * cm)].

Definition summary_blocks (summary : string) : list Flowable :=
  if truthy summary
  then [HRFlowable "100%" BRAND_MID 1;
        Paragraph "Summary" H1_style;
        Paragraph (str_replace summary newline "<br/>") Body_style]
  else [].

(** Classifiers of story blocks. *)
Definition is_table (b : Flowable) : bool :=
  match b with Table _ _ _ _ => true | _ => false end.

Definition is_rule (b : Flowable) : bool :=
  match b with HRFlowable _ _ _ => true | _ => false end.

(** A paragraph set in the registry style constructed under [name]. *)
Definition in_style (name : string) (b : Flowable) : bool :=
  match b with
  | Paragraph _ st => String.eqb (style_name st) name
  | _ => false
  end.

Definition has_char (c : ascii) (s : string) : bool :=
  existsb (Ascii.eqb c) (list_ascii_of_string s).

(** The operators a page callback added to the page. *)
Definition ops_added (before after : Canvas) : list DrawOp :=
  drop (List.length (page_ops before)) (page_ops after).

Definition header_bar_drawn (self : _PageTemplate) (doc : Doc) (ops : list DrawOp) : Prop :=
  let '(w, h) := doc_pagesize doc in
  (exists gs, fillColor gs = BRAND_DARK /\
     In (op_rect 0 (h - (12 # 10) * cm) w ((12 # 10) * cm) 1 0 gs) ops)
  /\ In (op_drawString ((15 # 10) * cm) (h - (8 # 10) * cm) (pt_title self)
           (mkGState WHITE "Helvetica-Bold" 9)) ops
  /\ In (op_drawRightString (w - (15 # 10) * cm) (h - (8 # 10) * cm) (pt_author self)
           (mkGState WHITE "Helvetica" 9)) ops.

Definition footer_bar_drawn (today : string) (doc : Doc) (ops : list DrawOp) : Prop :=
  let '(w, h) := doc_pagesize doc in
  let gs := mkGState GREY_MID "Helvetica" 8 in
  (exists gs', fillColor gs' = GREY_LIGHT /\
     In (op_rect 0 0 w ((9 # 10) * cm) 1 0 gs') ops)
  /\ In (op_drawString ((15 # 10) * cm) ((3 # 10) * cm) today gs) ops
  /\ In (op_drawCentredString (w / 2) ((3 # 10) * cm) "CONFIDENTIAL" gs) ops
  /\ In (op_drawRightString (w - (15 # 10) * cm) ((3 # 10) * cm)
           ("Page " ++ pretty (page doc)) gs) ops.

Definition is_state_marker (op : DrawOp) : bool :=
  match op with op_save | op_restore => true | _ => false end.

(** ** Definitions used by the statements below *)

(** The contents of the dict after the nine item assignments. *)
Definition registry : gmap string ParagraphStyle :=
  <["Footer" := Footer_style]> (<["Caption" := Caption_style]>
  (<["Bullet" := Bullet_style]> (<["Body" := Body_style]>
  (<["H3" := H3_style]> (<["H2" := H2_style]> (<["H1" := H1_style]>
  (<["Subtitle" := Subtitle_style]> (<["Title" := Title_style]> ∅)))))))).

Definition header_ops (self : _PageTemplate) (doc : Doc) (gs0 : GState) : list DrawOp :=
  let '(w, h) := doc_pagesize doc in
  [ op_rect 0 (h - (12 # 10) * cm) w ((12 # 10) * cm) 1 0
      (mkGState BRAND_DARK (fontFace gs0) (fontPt gs0));
    op_drawString ((15 # 10) * cm) (h - (8 # 10) * cm) (pt_title self)
      (mkGState WHITE "Helvetica-Bold" 9);
    op_drawRightString (w - (15 # 10) * cm) (h - (8 # 10) * cm) (pt_author self)
      (mkGState WHITE "Helvetica" 9) ].

Definition footer_ops (today : string) (doc : Doc) (gs0 : GState) : list DrawOp :=
  let '(w, h) := doc_pagesize doc in
  let gs := mkGState GREY_MID "Helvetica" 8 in
  [ op_rect 0 0 w ((9 # 10) * cm) 1 0
      (mkGState GREY_LIGHT (fontFace gs0) (fontPt gs0));
    op_drawString ((15 # 10) * cm) ((3 # 10) * cm) today gs;
    op_drawCentredString (w / 2) ((3 # 10) * cm) "CONFIDENTIAL" gs;
    op_drawRightString (w - (15 # 10) * cm) ((3 # 10) * cm)
      ("Page " ++ pretty (page doc)) gs ].

(** The drawing a call performs between its state save and restore. *)
Definition decoration (self : _PageTemplate) (today : string) (doc : Doc)
    (gs0 : GState) : list DrawOp :=
  let header := show_header self && (1 <? page doc)%Z in
  (if header then header_ops self doc gs0 else [])
  ++ (if show_footer self
      then footer_ops today doc
             (if header then mkGState WHITE "Helvetica" 9 else gs0)
      else []).

(** [sum(widths)] *)
Definition Qsum (ws : list Q) : Q := fold_left Qplus ws 0%Q.

(** A table description with headers and no rows. *)
Definition header_only : TableDict :=
  mkTableDict (Some "Sales") (Some ["A"; "B"]) (Some []) None.

(** The section of the end-to-end scenario of the specification. *)
Definition two_line_section : SectionDict :=
  mkSection (Some "H") (Some ("Line1" ++ newline ++ "Line2")%string) None None.

(** A section with an out-of-range level. *)
Definition level_three_section : SectionDict :=
  mkSection (Some "Appendix") (Some "text") None (Some 3%Z).

(** ** Further classifiers of story blocks *)

Definition is_page_break (b : Flowable) : bool :=
  match b with PageBreak => true | _ => false end.

(** The column widths of a table block (no widths for other blocks). *)
Definition table_widths (b : Flowable) : list Q :=
  match b with Table _ ws _ _ => ws | _ => [] end.

(** The cell matrix of a table block. *)
Definition table_data (b : Flowable) : list (list Flowable) :=
  match b with Table data _ _ _ => data | _ => [] end.

(** Number of occurrences of a character in a string. *)
Fixpoint count_char (c : ascii) (s : string) : nat :=
  match s with
  | EmptyString => 0
  | String x s' => (if Ascii.eqb c x then 1 else 0) + count_char c s'
  end.

(** * The callers in pdf_processor.py

    The PDF and Word libraries are external collaborators.  A PDF file is
    the list of its pages as [PdfReader(path).pages] or
    [pdfplumber.open(path).pages] present it, and the file system is a
    finite map from paths to such files ([os.path.exists] is membership).
    For text extraction a page is what [page.extract_text()] returns for
    it.  [Path(p).stem], [os.path.join] and [str.strip] are parameters. *)

Inductive PdfError :=
| FileNotFoundError (msg : string)
| ValueError (msg : string)
| ListIndexError.

Inductive outcome (A : Type) :=
| Returned (a : A)
| Raised (e : PdfError).
Arguments Returned {A} a.
Arguments Raised {A} e.

(** [l[k]] on a Python list: a negative index counts from the end, an index
    outside [-len, len) raises IndexError ([None] here). *)
Definition py_index {A} (l : list A) (k : Z) : option A :=
  let n := Z.of_nat (List.length l) in
  if (0 <=? k)%Z then l !! Z.to_nat k
  else if (- n <=? k)%Z then l !! Z.to_nat (k + n)
  else None.

(** [range(start, stop)] *)
Definition py_range (start stop : Z) : list Z := seqZ start (stop - start).

(** [text or ""] *)
Definition text_or_empty (text : option string) : string :=
  match text with
  | Some s => if truthy s then s else ""
  | None => ""
  end.

(** [sep.join(xs)] *)
Fixpoint py_join (sep : string) (xs : list string) : string :=
  match xs with
  | [] => ""
  | [x] => x
  | x :: rest => (x ++ sep ++ py_join sep rest)%string
  end.

Definition extract_text_by_page (fs : gmap string (list (option string)))
    (pdf_path : string) (page_number : Z) : outcome string :=
  match fs !! pdf_path with
  | None => Raised (FileNotFoundError ("PDF not found: " ++ pdf_path))
  | Some pages =>
      let total := Z.of_nat (List.length pages) in
      if (page_number <? 1)%Z || (total <? page_number)%Z
      then Raised (ValueError ("Page " ++ pretty page_number
                               ++ " out of range (1–" ++ pretty total ++ ")"))
      else match py_index pages (page_number - 1) with
           | Some page => Returned (text_or_empty page)
           | None => Raised ListIndexError
           end
  end.

(** The loop [for i in range(...): result[i] = pdf.pages[i - 1]...]. *)
Fixpoint page_range_loop (pages : list (option string)) (indices : list Z)
    (result : gmap Z string) : outcome (gmap Z string) :=
  match indices with
  | [] => Returned result
  | i :: rest =>
      match py_index pages (i - 1) with
      | Some page => page_range_loop pages rest (<[i := text_or_empty page]> result)
      | None => Raised ListIndexError
      end
  end.

Definition extract_text_page_range (fs : gmap string (list (option string)))
    (pdf_path : string) (start end_ : Z) : outcome (gmap Z string) :=
  match fs !! pdf_path with
  | None => Raised (FileNotFoundError ("PDF not found: " ++ pdf_path))
  | Some pages =>
      let total := Z.of_nat (List.length pages) in
      let end_ := Z.min end_ total in
      page_range_loop pages (py_range start (end_ + 1)) ∅
  end.

(** The two nested loops of [merge_pdfs]: [writer] is the list of pages
    added so far. *)
Fixpoint merge_loop {P} (fs : gmap string (list P)) (input_paths : list string)
    (writer : list P) (total_pages : Z) : outcome (list P * Z) :=
  match input_paths with
  | [] => Returned (writer, total_pages)
  | path :: rest =>
      match fs !! path with
      | None => Raised (FileNotFoundError ("PDF not found: " ++ path))
      | Some pages =>
          let '(writer, total_pages) :=
            foldl (fun acc page => (fst acc ++ [page], (snd acc + 1)%Z))
                  (writer, total_pages) pages in
          merge_loop fs rest writer total_pages
      end
  end.

(** [merge_pdfs(input_paths, output_path)]: the page count and the file
    system after [writer.write]. *)
Definition merge_pdfs {P} (fs : gmap string (list P)) (input_paths : list string)
    (output_path : string) : outcome (Z * gmap string (list P)) :=
  match merge_loop fs input_paths [] 0%Z with
  | Returned (writer, total_pages) =>
      Returned (total_pages, <[output_path := writer]> fs)
  | Raised e => Raised e
  end.

(** The [while chunk_start < total] loop of [split_pdf].  [fuel] bounds the
    number of iterations ([None]: the bound was reached before the loop
    exited); [written] is the sequence of files written, each with its
    pages. *)
Fixpoint split_loop {P} (fuel : nat) (join : string -> string -> string)
    (pages : list P) (stem output_dir : string) (pages_per_chunk : Z)
    (chunk_start chunk_num : Z) (output_files : list string)
    (written : list (string * list P))
  : option (outcome (list string * list (string * list P))) :=
  let total := Z.of_nat (List.length pages) in
  if (chunk_start <? total)%Z then
    match fuel with
    | O => None
    | S fuel' =>
        let chunk_end := Z.min (chunk_start + pages_per_chunk) total in
        match mapM (py_index pages) (py_range chunk_start chunk_end) with
        | None => Some (Raised ListIndexError)
        | Some writer =>
            let filename :=
              if (pages_per_chunk =? 1)%Z
              then (stem ++ "_page_" ++ pretty (chunk_start + 1)%Z ++ ".pdf")%string
              else (stem ++ "_pages_" ++ pretty (chunk_start + 1)%Z
                    ++ "-" ++ pretty chunk_end ++ ".pdf")%string in
            let out_path := join output_dir filename in
            split_loop fuel' join pages stem output_dir pages_per_chunk
                       chunk_end (chunk_num + 1)%Z
                       (output_files ++ [out_path])
                       (written ++ [(out_path, writer)])
        end
    end
  else Some (Returned (output_files, written)).

Definition split_pdf {P} (fuel : nat) (stem_of : string -> string)
    (join : string -> string -> string) (fs : gmap string (list P))
    (pdf_path output_dir : string) (pages_per_chunk : Z)
  : option (outcome (list string * list (string * list P))) :=
  match fs !! pdf_path with
  | None => Some (Raised (FileNotFoundError ("PDF not found: " ++ pdf_path)))
  | Some pages =>
      split_loop fuel join pages (stem_of pdf_path) output_dir pages_per_chunk
                 0%Z 1%Z [] []
  end.

(** The file system after the writes of [split_pdf], in order. *)
Definition apply_writes {P} (fs : gmap string (list P))
    (written : list (string * list P)) : gmap string (list P) :=
  foldl (fun fs w => <[fst w := snd w]> fs) fs written.

(** [extract_text_from_docx]: [paragraphs] are the texts of
    [Document(docx_path).paragraphs]. *)
Definition extract_text_from_docx (strip : string -> string)
    (paragraphs : list string) : string :=
  py_join newline (List.filter (fun text => truthy (strip text)) paragraphs).

(** [docx_to_pdf_text_report(docx_path, output_pdf)]; the report is
    generated with the default author, subtitle and page size. *)
Definition docx_to_pdf_text_report (today : string) (strip : string -> string)
    (stem_of : string -> string) (paragraphs : list string)
    (docx_path output_pdf : string) : result (string * BuiltDoc) :=
  let text := extract_text_from_docx strip paragraphs in
  match generate_text_report today (stem_of docx_path)
          (Some [mkSection (Some "Document Content") (Some text) None None])
          output_pdf "" "" A4 with
  | Ok (_, doc) => Ok (output_pdf, doc)
  | Raise e => Raise e
  end.

(** ** Text rendering of extracted tables

    Python strings are sequences of characters, and [len] and [ljust] count
    characters: the text functions below work on lists over an arbitrary
    character type [C], into which [chr] embeds the ASCII characters of the
    literals. *)

Section TablesToText.
Context {C : Type}.
Variable chr : ascii -> C.

(** A string literal of the source. *)
Definition lit (s : string) : list C := map chr (list_ascii_of_string s).

(** A table dict as [extract_tables] builds it. *)
Record ExtractedTable := mkExtracted {
  et_page : Z;
  et_index : Z;
  et_headers : list (list C);
  et_rows : list (list (list C))
}.

(** [sep.join(xs)] *)
Fixpoint text_join (sep : list C) (xs : list (list C)) : list C :=
  match xs with
  | [] => []
  | [x] => x
  | x :: rest => x ++ sep ++ text_join sep rest
  end.

(** [s.ljust(width)] *)
Definition ljust (s : list C) (width : nat) : list C :=
  s ++ repeat (chr " ") (width - List.length s).

(** [for j, cell in enumerate(row): if j < len(widths): widths[j] =
    max(widths[j], len(cell))], from index [j] on. *)
Fixpoint widen_row (widths : list nat) (j : nat) (row : list (list C)) : list nat :=
  match row with
  | [] => widths
  | cell :: rest =>
      let widths :=
        if (j <? List.length widths)%nat
        then <[j := Nat.max (default 0%nat (widths !! j)) (List.length cell)]> widths
        else widths in
      widen_row widths (S j) rest
  end.

Definition column_widths (headers : list (list C)) (rows : list (list (list C)))
  : list nat :=
  foldl (fun widths row => widen_row widths 0 row)
        (map (fun h => Nat.max (List.length h) 8) headers) rows.

(** The lines appended to [lines] for one table.  [widths[i]] is read
    with default 0; the index is always in range, as [widths] has one
    entry per header. *)
Definition table_lines (tbl : ExtractedTable) : list (list C) :=
  let headers := et_headers tbl in
  let widths := column_widths headers (et_rows tbl) in
  let header_line :=
    text_join (lit " | ")
      (imap (fun i h => ljust h (default 0%nat (widths !! i))) headers) in
  let separator :=
    text_join (lit "-+-") (map (fun w => repeat (chr "-") w) widths) in
  [lit (newline ++ "=== Table " ++ pretty (et_index tbl)
        ++ " (Page " ++ pretty (et_page tbl) ++ ") ===" ++ newline);
   header_line;
   separator]
  ++ map (fun row =>
            text_join (lit " | ")
              (map (fun i =>
                      ljust (if (i <? List.length row)%nat
                             then default [] (row !! i) else [])
                            (default 0%nat (widths !! i)))
                   (seq 0 (List.length headers))))
         (et_rows tbl).

Definition tables_to_text (tables : list ExtractedTable) : list C :=
  text_join (lit newline) (List.concat (map table_lines tables)).
End TablesToText.

(** ** Table extraction

    [page.extract_tables()] gives, for a page, its raw tables: each a list
    of rows, each row a list of cells, a cell being a string or [None]. *)

Section ExtractTables.
Context {C : Type}.
Variable strip : list C -> list C.

(** [str(cell or "").strip()] *)
Definition clean_cell (cell : option (list C)) : list C :=
  strip (match cell with
         | Some s => if truthy s then s else []
         | None => []
         end).

(** The inner loop: the tables appended for one page.  A raw table that is
    empty or has fewer than two rows is skipped ([continue]). *)
Definition page_tables (page_num : Z) (raw_tables : list (list (list (option (list C)))))
  : list (@ExtractedTable C) :=
  List.concat
    (imap (fun tbl_idx raw =>
             if negb (truthy raw) || (List.length raw <? 2)%nat
             then []
             else [mkExtracted page_num (Z.of_nat tbl_idx + 1)%Z
                     (map clean_cell (hd [] raw))
                     (map (map clean_cell) (tl raw))])
          raw_tables).

Definition extract_tables
    (fs : gmap string (list (list (list (list (option (list C)))))))
    (pdf_path : string) (pages : option (list Z))
  : outcome (list (@ExtractedTable C)) :=
  match fs !! pdf_path with
  | None => Raised (FileNotFoundError ("PDF not found: " ++ pdf_path))
  | Some pdf_pages =>
      Returned
        (List.concat
           (imap (fun i raw_tables =>
                    let page_num := (Z.of_nat i + 1)%Z in
                    if match pages with
                       | Some ps => truthy ps && negb (bool_decide (page_num ∈ ps))
                       | None => false
                       end
                    then []
                    else page_tables page_num raw_tables)
                 pdf_pages))
  end.
End ExtractTables.

(** ** The monad and the stories it builds *)

(** [emits m bs]: whatever the story, [m] returns normally and has appended
    exactly [bs] to it. *)
Definition emits (m : M (list Flowable) unit) (bs : list Flowable) : Prop :=
  forall story, run m story = Ok (tt, story ++ bs).

Lemma run_bind {S A B} (m : M S A) (k : A -> M S B) (s : S) :
  run (bind m k) s =
  match run m s with Ok (a, s') => run (k a) s' | Raise e => Raise e end.
Proof. reflexivity. Qed.

Lemma emits_append b : emits (append b) [b].
Proof. intros story. reflexivity. Qed.

Lemma emits_ret : emits (ret tt) [].
Proof. intros story. cbn. by rewrite app_nil_r. Qed.

Lemma emits_bind m1 m2 bs1 bs2 :
  emits m1 bs1 -> emits m2 bs2 -> emits (m1 ;; m2) (bs1 ++ bs2).
Proof.
  intros H1 H2 story. rewrite run_bind, H1, H2. by rewrite app_assoc.
Qed.

Lemma emits_lift {A} (r : result A) (a : A) (k : A -> M (list Flowable) unit) bs :
  r = Ok a -> emits (k a) bs -> emits (x <- lift r ;; k x) bs.
Proof. intros -> Hk story. rewrite run_bind. cbn. apply Hk. Qed.

Lemma emits_when (c : bool) m bs :
  emits m bs -> emits (when c m) (if c then bs else []).
Proof. destruct c; [done | intros _; apply emits_ret]. Qed.

Lemma emits_for_each {A} (body : A -> M (list Flowable) unit) (f : A -> list Flowable) xs :
  (forall x, emits (body x) (f x)) ->
  emits (for_each xs body) (List.concat (map f xs)).
Proof.
  intros Hbody. induction xs as [|x xs IH]; cbn [for_each map List.concat].
  - apply emits_ret.
  - by apply emits_bind.
Qed.

(** ** The style registry as the generators read it *)

Lemma _build_styles_alloc (h : gmap nat (gmap string ParagraphStyle)) :
  _build_styles h = (fresh (dom h), <[fresh (dom h) := registry]> h).
Proof.
  unfold _build_styles, new_dict, setitem, registry.
  by rewrite !(alter_insert_eq (M := gmap nat)).
Qed.

Lemma built_styles_eq : built_styles = registry.
Proof.
  unfold built_styles. rewrite _build_styles_alloc.
  by rewrite (lookup_insert_eq (M := gmap nat)).
Qed.

Lemma getitem_Title : getitem built_styles "Title" = Ok Title_style.
Proof. rewrite built_styles_eq. unfold getitem, registry. by simplify_map_eq. Qed.
Lemma getitem_Subtitle : getitem built_styles "Subtitle" = Ok Subtitle_style.
Proof. rewrite built_styles_eq. unfold getitem, registry. by simplify_map_eq. Qed.
Lemma getitem_H1 : getitem built_styles "H1" = Ok H1_style.
Proof. rewrite built_styles_eq. unfold getitem, registry. by simplify_map_eq. Qed.
Lemma getitem_H2 : getitem built_styles "H2" = Ok H2_style.
Proof. rewrite built_styles_eq. unfold getitem, registry. by simplify_map_eq. Qed.
Lemma getitem_Body : getitem built_styles "Body" = Ok Body_style.
Proof. rewrite built_styles_eq. unfold getitem, registry. by simplify_map_eq. Qed.
Lemma getitem_Bullet : getitem built_styles "Bullet" = Ok Bullet_style.
Proof. rewrite built_styles_eq. unfold getitem, registry. by simplify_map_eq. Qed.
Lemma getitem_Caption : getitem built_styles "Caption" = Ok Caption_style.
Proof. rewrite built_styles_eq. unfold getitem, registry. by simplify_map_eq. Qed.

Lemma emits_append_paragraph styles text key st :
  getitem styles key = Ok st ->
  emits (append_paragraph styles text key) [Paragraph text st].
Proof.
  intros Hst. unfold append_paragraph.
  eapply emits_lift; [exact Hst | apply emits_append].
Qed.

(** ** The loop bodies append the block groups *)

Lemma emits_for_each_single {A} (body : A -> M (list Flowable) unit)
    (g : A -> Flowable) xs :
  (forall x, emits (body x) [g x]) ->
  emits (for_each xs body) (map g xs).
Proof.
  intros Hbody. induction xs as [|x xs IH]; cbn [for_each map].
  - apply emits_ret.
  - apply (emits_bind _ _ [g x] (map g xs)); [apply Hbody | exact IH].
Qed.

Lemma section_body_emits gap sec :
  emits (section_body built_styles gap sec) (section_blocks gap sec).
Proof.
  unfold section_body, section_blocks, section_heading_blocks,
    section_body_blocks, section_bullet_blocks.
  set (level := dict_get (sec_level sec) 1%Z).
  eapply emits_lift with
    (a := if (level =? 1)%Z then H1_style else H2_style).
  { destruct (level =? 1)%Z; [apply getitem_H1 | apply getitem_H2]. }
  apply emits_bind; [| apply emits_bind; [| apply emits_bind]].
  - apply emits_when.
    apply (emits_bind _ _ [_] [_; _]); [apply emits_append |].
    apply (emits_bind _ _ [_] [_]); apply emits_append.
  - apply emits_when, emits_append_paragraph, getitem_Body.
  - apply emits_for_each_single. intros bullet.
    apply emits_append_paragraph, getitem_Bullet.
  - apply emits_append.
Qed.

(** *** The table builder returns *)

Lemma comprehension_ok {A B} (f : A -> result B) (g : A -> B) xs :
  (forall x, f x = Ok (g x)) -> comprehension f xs = Ok (map g xs).
Proof.
  intros Hf. induction xs as [|x xs IH]; cbn; [done |].
  by rewrite Hf, IH.
Qed.

Lemma columns_nonzero (n : nat) :
  Qeq_bool (inject_Z (Z.of_nat (Nat.max n 1))) 0 = false.
Proof.
  destruct (Qeq_bool _ 0) eqn:E; [| done].
  apply Qeq_bool_iff in E. unfold Qeq in E. cbn in E. lia.
Qed.

Lemma _build_pdf_table_auto headers rows page_width :
  _build_pdf_table headers rows None page_width
  = Ok (pdf_table headers rows page_width).
Proof.
  unfold _build_pdf_table, pdf_table, py_div.
  rewrite columns_nonzero. cbn [bind ret result_monad].
  rewrite (comprehension_ok _
    (fun h => Paragraph ("<b>" ++ h ++ "</b>") Body_style)).
  2:{ intros h. by rewrite getitem_Body. }
  rewrite (comprehension_ok _
    (map (fun cell => Paragraph (py_str cell) Body_style))).
  2:{ intros row. apply comprehension_ok. intros cell. by rewrite getitem_Body. }
  reflexivity.
Qed.

Lemma table_body_emits usable_w gap tbl_def :
  emits (table_body built_styles usable_w gap tbl_def)
        (table_blocks usable_w gap tbl_def).
Proof.
  unfold table_body, table_blocks, table_heading_blocks, table_grid_blocks,
    table_caption_blocks.
  apply emits_bind; [| apply emits_bind; [| apply emits_bind]].
  - apply emits_when.
    apply (emits_bind _ _ [_] [_; _]);
      [apply emits_append_paragraph, getitem_H1 |].
    apply (emits_bind _ _ [_] [_]); apply emits_append.
  - apply emits_when.
    eapply emits_lift; [apply _build_pdf_table_auto | apply emits_append].
  - apply emits_when.
    apply (emits_bind _ _ [_] [_]); [apply emits_append |].
    apply emits_append_paragraph, getitem_Caption.
  - apply emits_append.
Qed.

(** ** The stories handed to [doc.build] *)

Lemma run_emits {A} m bs (k : M (list Flowable) A) story :
  emits m bs -> run (m ;; k) story = run k (story ++ bs).
Proof. intros Hm. by rewrite run_bind, Hm. Qed.

Lemma run_lift_ok {A B} (r : result A) a (k : A -> M (list Flowable) B) story :
  r = Ok a -> run (x <- lift r ;; k x) story = run (k a) story.
Proof. by intros ->. Qed.

Create HintDb emits.
#[local] Hint Resolve emits_append emits_ret emits_bind emits_when
  emits_append_paragraph getitem_Title getitem_Subtitle getitem_H1
  getitem_Body getitem_Caption : emits.
#[local] Hint Extern 2 (emits (for_each _ (section_body _ _)) _) =>
  apply emits_for_each, section_body_emits : emits.
#[local] Hint Extern 2 (emits (for_each _ (table_body _ _ _)) _) =>
  apply emits_for_each, table_body_emits : emits.

Ltac story_step :=
  first
    [ erewrite run_emits by eauto 8 with emits
    | erewrite run_lift_ok by eauto with emits ].

Lemma text_report_story today title secs output_path author subtitle page_size :
  generate_text_report today title (Some secs) output_path author subtitle page_size
  = Ok (output_path,
        mkBuilt (make_doc output_path page_size)
          (text_cover_blocks today title author subtitle
           ++ List.concat (map (section_blocks (3 # 10)) secs))
          (_PageTemplate_init title author) (_PageTemplate_init title author)).
Proof.
  unfold generate_text_report. cbn [iter].
  repeat story_step.
  rewrite run_bind. cbn [ret M_monad run].
  repeat story_step.
  cbn [doc_build run finish].
  unfold text_cover_blocks, subtitle_blocks, date_line_of.
  destruct (truthy subtitle), (truthy author); cbn; rewrite <- ?app_assoc; reflexivity.
Qed.

Lemma table_report_story today title tbls output_path author intro w h :
  generate_table_report today title (Some tbls) output_path author intro (w, h)
  = Ok (output_path,
        mkBuilt (make_doc output_path (w, h))
          (table_cover_blocks today title author
           ++ intro_blocks intro
           ++ List.concat (map (table_blocks (w - 4 * cm) (6 # 10)) tbls))
          (_PageTemplate_init title author) (_PageTemplate_init title author)).
Proof.
  unfold generate_table_report. cbn [iter].
  repeat story_step.
  rewrite run_bind. cbn [ret M_monad run].
  repeat story_step.
  cbn [doc_build run finish].
  unfold table_cover_blocks, intro_blocks, date_line_of.
  destruct (truthy intro), (truthy author); cbn; rewrite <- ?app_assoc; reflexivity.
Qed.

Lemma full_report_story today title output_path author subtitle
    sections tables summary w h :
  generate_full_report today title output_path author subtitle
                       sections tables summary (w, h)
  = Ok (output_path,
        mkBuilt (make_doc output_path (w, h))
          (full_cover_blocks today title author subtitle (w - 4 * cm)
           ++ List.concat (map (section_blocks (4 # 10)) (or_empty sections))
           ++ List.concat (map (table_blocks (w - 4 * cm) (5 # 10)) (or_empty tables))
           ++ summary_blocks summary)
          (_PageTemplate_init title author) (_PageTemplate_init title author)).
Proof.
  unfold generate_full_report.
  repeat story_step.
  cbn [doc_build run finish].
  unfold full_cover_blocks, subtitle_blocks, summary_blocks, date_line_of, banner.
  destruct (truthy subtitle), (truthy author), (truthy summary);
    cbn; rewrite <- ?app_assoc; reflexivity.
Qed.

(** ** Page decoration *)

Lemma _PageTemplate_call_run self today doc c :
  run (_PageTemplate_call self today doc) c
  = Ok (tt, mkCanvas (gstate c) (saved c)
              (page_ops c ++ op_save :: decoration self today doc (gstate c)
                                        ++ [op_restore])).
Proof.
  unfold _PageTemplate_call, decoration, header_ops, footer_ops.
  destruct doc as [[w h] p], c as [[col face pt] stack ops]. cbn [doc_pagesize page].
  destruct (show_header self), (show_footer self), (1 <? p)%Z;
    cbn; rewrite <- ?app_assoc; reflexivity.
Qed.

Lemma ops_added_app c ops' gs stack :
  ops_added c (mkCanvas gs stack (page_ops c ++ ops')) = ops'.
Proof. unfold ops_added. cbn. apply drop_app_length. Qed.

Ltac in_list := cbn [In app]; repeat first [left; reflexivity | right].

Lemma header_bar_in_decoration self today doc gs0 :
  header_bar_drawn self doc (op_save :: decoration self today doc gs0 ++ [op_restore])
  <-> show_header self = true /\ (1 < page doc)%Z.
Proof.
  unfold header_bar_drawn, decoration, header_ops, footer_ops.
  destruct doc as [[w h] p]. cbn [doc_pagesize page].
  split.
  - intros (_ & Htitle & _).
    destruct (show_header self), (Z.ltb_spec 1 p) as [Hp | Hp];
      cbn [andb] in Htitle; [by split | exfalso ..];
      destruct (show_footer self); cbn [In app] in Htitle;
      intuition congruence.
  - intros [-> Hp]. destruct (Z.ltb_spec 1 p) as [_ | ?]; [| lia].
    cbn [andb]. split; [| split]; [| in_list ..].
    eexists. split; [| in_list]. reflexivity.
Qed.

Lemma footer_bar_in_decoration self today doc gs0 :
  footer_bar_drawn today doc (op_save :: decoration self today doc gs0 ++ [op_restore])
  <-> show_footer self = true.
Proof.
  unfold footer_bar_drawn, decoration, header_ops, footer_ops.
  destruct doc as [[w h] p]. cbn [doc_pagesize page].
  split.
  - intros (_ & _ & Hmark & _).
    destruct (show_footer self); [done | exfalso].
    destruct (show_header self && (1 <? p)%Z); cbn [In app] in Hmark;
      intuition congruence.
  - intros ->.
    destruct (show_header self && (1 <? p)%Z);
      (split; [| split; [| split]]; [| in_list ..]);
      (eexists; split; [| in_list]; reflexivity).
Qed.

(** C5: for every invocation of the page-decoration callback on page [p],
    the header bar (filled rectangle, title, author) is drawn if and only
    if [show_header] holds and [p > 1], while the footer bar (filled
    rectangle, today's date, the fixed "CONFIDENTIAL" marker and
    "Page p") is drawn if and only if [show_footer] holds, hence on every
    page, page 1 included.  The callback always returns. *)
Theorem page_decoration_header_and_footer self today doc c :
  exists c',
    run (_PageTemplate_call self today doc) c = Ok (tt, c')
    /\ (header_bar_drawn self doc (ops_added c c')
        <-> show_header self = true /\ (1 < page doc)%Z)
    /\ (footer_bar_drawn today doc (ops_added c c')
        <-> show_footer self = true).
Proof.
  eexists. split; [apply _PageTemplate_call_run |].
  rewrite ops_added_app.
  split; [apply header_bar_in_decoration | apply footer_bar_in_decoration].
Qed.

Lemma decoration_has_no_marker self today doc gs0 :
  forallb (fun op => negb (is_state_marker op)) (decoration self today doc gs0) = true.
Proof.
  unfold decoration, header_ops, footer_ops.
  destruct doc as [[w h] p]. cbn [doc_pagesize page].
  by destruct (show_header self && (1 <? p)%Z), (show_footer self).
Qed.

(** C6: every invocation of the page-decoration callback returns with the
    fill colour, the font and the saved-state stack of the canvas exactly as
    they were before the call, on each of its branch combinations: what it
    adds to the page is one state save, then drawing operators only, then
    one state restore. *)
Theorem page_decoration_restores_state self today doc c :
  exists c' drawing,
    run (_PageTemplate_call self today doc) c = Ok (tt, c')
    /\ gstate c' = gstate c
    /\ saved c' = saved c
    /\ ops_added c c' = op_save :: drawing ++ [op_restore]
    /\ forallb (fun op => negb (is_state_marker op)) drawing = true.
Proof.
  exists (mkCanvas (gstate c) (saved c)
            (page_ops c ++ op_save :: decoration self today doc (gstate c)
                                      ++ [op_restore])),
         (decoration self today doc (gstate c)).
  split; [apply _PageTemplate_call_run |].
  repeat split; [apply ops_added_app | apply decoration_has_no_marker].
Qed.

(** ** Style registry *)

Lemma registry_dom :
  dom registry =
  ({["Title"; "Subtitle"; "H1"; "H2"; "H3"; "Body"; "Bullet"; "Caption"; "Footer"]}
     : gset string).
Proof.
  unfold registry. rewrite !dom_insert_L, dom_empty_L. set_solver.
Qed.

(** C9: every invocation of [_build_styles] allocates a new mapping (its
    identity is not one of the heap before the call) holding exactly the
    keys Title, Subtitle, H1, H2, H3, Body, Bullet, Caption and Footer;
    the call changes no object that existed before; two invocations return
    distinct objects with equal contents; and assigning into the mapping of
    one invocation leaves the mapping of the other as it was. *)
Theorem build_styles_fresh_and_equal (h : gmap nat (gmap string ParagraphStyle)) :
  let '(l1, h1) := _build_styles h in
  let '(l2, h2) := _build_styles h1 in
  (l1 ∉ dom h) /\ (l2 ∉ dom h1) /\ l1 <> l2
  /\ h1 !! l1 = Some registry
  /\ h2 !! l2 = Some registry
  /\ h2 !! l1 = h1 !! l1
  /\ dom registry =
       ({["Title"; "Subtitle"; "H1"; "H2"; "H3"; "Body"; "Bullet"; "Caption"; "Footer"]}
          : gset string)
  /\ delete l1 h1 = h
  /\ delete l2 h2 = h1
  /\ forall key v, setitem l1 key v h2 !! l2 = h2 !! l2.
Proof.
  rewrite (_build_styles_alloc h).
  rewrite (_build_styles_alloc (<[fresh (dom h) := registry]> h)).
  set (l1 := fresh (dom h)).
  set (h1 := <[l1 := registry]> h).
  set (l2 := fresh (dom h1)).
  assert (Hl1 : l1 ∉ dom h) by apply is_fresh.
  assert (Hl2 : l2 ∉ dom h1) by apply is_fresh.
  assert (Hne : l1 <> l2).
  { intros E. apply Hl2. rewrite <- E. unfold h1. rewrite dom_insert_L. set_solver. }
  split_and!.
  - exact Hl1.
  - exact Hl2.
  - exact Hne.
  - unfold h1. by rewrite (lookup_insert_eq (M := gmap nat)).
  - by rewrite (lookup_insert_eq (M := gmap nat)).
  - by rewrite (lookup_insert_ne (M := gmap nat)).
  - apply registry_dom.
  - unfold h1. rewrite (delete_insert_eq (M := gmap nat)).
    apply delete_id. by apply not_elem_of_dom.
  - rewrite (delete_insert_eq (M := gmap nat)).
    apply delete_id. by apply not_elem_of_dom.
  - intros key v. unfold setitem. by rewrite (lookup_alter_ne (M := gmap nat)).
Qed.

(** ** Column widths *)

Lemma fold_left_Qplus_repeat (x a : Q) (n : nat) :
  (fold_left Qplus (repeat x n) a == a + inject_Z (Z.of_nat n) * x)%Q.
Proof.
  revert a. induction n as [|n IH]; intros a.
  - cbn. ring.
  - cbn [repeat fold_left]. rewrite IH.
    rewrite Nat2Z.inj_succ. unfold Z.succ. rewrite inject_Z_plus. ring.
Qed.

Lemma Qsum_repeat (x : Q) (n : nat) :
  (Qsum (repeat x n) == inject_Z (Z.of_nat n) * x)%Q.
Proof. unfold Qsum. rewrite fold_left_Qplus_repeat. ring. Qed.

Lemma columns_not_zero (n : nat) : ~ (inject_Z (Z.of_nat (Nat.max n 1)) == 0)%Q.
Proof.
  intros E. apply Qeq_bool_iff in E. by rewrite columns_nonzero in E.
Qed.


(** ** Block order of the full report *)

Lemma or_empty_Some {A} (l : list A) : or_empty (Some l) = l.
Proof. by destruct l. Qed.


(** ** Which tables get a table block *)

Lemma filter_concat_map {A} (p : Flowable -> bool) (f g : A -> list Flowable) xs :
  (forall x, List.filter p (f x) = g x) ->
  List.filter p (List.concat (map f xs)) = List.concat (map g xs).
Proof.
  intros Hfg. induction xs as [|x xs IH]; cbn [map List.concat]; [done |].
  by rewrite List.filter_app, Hfg, IH.
Qed.

Lemma filter_concat_map_nil {A} (p : Flowable -> bool) (f : A -> list Flowable) xs :
  (forall x, List.filter p (f x) = []) ->
  List.filter p (List.concat (map f xs)) = [].
Proof.
  intros Hf. induction xs as [|x xs IH]; cbn [map List.concat]; [done |].
  by rewrite List.filter_app, Hf, IH.
Qed.

Lemma section_blocks_no_table gap sec :
  List.filter is_table (section_blocks gap sec) = [].
Proof.
  unfold section_blocks, section_heading_blocks, section_body_blocks,
    section_bullet_blocks.
  rewrite !List.filter_app.
  destruct (truthy (dict_get (sec_heading sec) "")),
    (truthy (dict_get (sec_body sec) "")); cbn [List.filter is_table app];
    induction (dict_get (sec_bullets sec) []) as [|b bs IH]; done.
Qed.

Lemma table_blocks_tables usable_w gap tbl_def :
  List.filter is_table (table_blocks usable_w gap tbl_def)
  = table_grid_blocks usable_w tbl_def.
Proof.
  unfold table_blocks, table_heading_blocks, table_grid_blocks,
    table_caption_blocks.
  rewrite !List.filter_app.
  by destruct (truthy (dict_get (tbl_heading tbl_def) "")),
    (truthy (dict_get (tbl_caption tbl_def) "")),
    (truthy (dict_get (tbl_headers tbl_def) [])
     && truthy (dict_get (tbl_rows tbl_def) [])).
Qed.

Lemma cover_tables_text today title author subtitle :
  List.filter is_table (text_cover_blocks today title author subtitle) = [].
Proof. unfold text_cover_blocks, subtitle_blocks. by destruct (truthy subtitle). Qed.

Lemma cover_tables_table today title author intro :
  List.filter is_table (table_cover_blocks today title author ++ intro_blocks intro) = [].
Proof. unfold table_cover_blocks, intro_blocks. by destruct (truthy intro). Qed.

Lemma cover_tables_full today title author subtitle usable_w :
  List.filter is_table (full_cover_blocks today title author subtitle usable_w)
  = [banner title usable_w].
Proof. unfold full_cover_blocks, subtitle_blocks. by destruct (truthy subtitle). Qed.

Lemma summary_no_table summary : List.filter is_table (summary_blocks summary) = [].
Proof. unfold summary_blocks. by destruct (truthy summary). Qed.



(** ** Omitted fields *)

Lemma existsb_bullets (p : Flowable -> bool) (bullets : list string) :
  (forall text, p (Paragraph text Bullet_style) = false) ->
  existsb p (map (fun bullet => Paragraph ("• " ++ bullet) Bullet_style) bullets) = false.
Proof.
  intros Hp. induction bullets as [|b bs IH]; cbn [map existsb]; [done |].
  by rewrite Hp, IH.
Qed.

Lemma section_blocks_fields gap sec :
  let bs := section_blocks gap sec in
  existsb (fun b => in_style "H1" b || in_style "H2" b) bs
    = truthy (dict_get (sec_heading sec) "")
  /\ existsb is_rule bs = truthy (dict_get (sec_heading sec) "")
  /\ existsb (in_style "Body") bs = truthy (dict_get (sec_body sec) "")
  /\ existsb (in_style "Bullet") bs = truthy (dict_get (sec_bullets sec) []).
Proof.
  unfold section_blocks, section_heading_blocks, section_body_blocks,
    section_bullet_blocks. cbn zeta.
  rewrite !existsb_app.
  split_and!.
  - rewrite existsb_bullets by done.
    by destruct (truthy (dict_get (sec_heading sec) "")),
      (truthy (dict_get (sec_body sec) "")),
      (dict_get (sec_level sec) 1 =? 1)%Z.
  - rewrite existsb_bullets by done.
    by destruct (truthy (dict_get (sec_heading sec) "")),
      (truthy (dict_get (sec_body sec) "")).
  - rewrite existsb_bullets by done.
    by destruct (truthy (dict_get (sec_heading sec) "")),
      (truthy (dict_get (sec_body sec) "")),
      (dict_get (sec_level sec) 1 =? 1)%Z.
  - destruct (dict_get (sec_bullets sec) []) as [|b bs];
      by destruct (truthy (dict_get (sec_heading sec) "")),
        (truthy (dict_get (sec_body sec) "")),
        (dict_get (sec_level sec) 1 =? 1)%Z.
Qed.

Lemma table_blocks_fields usable_w gap tbl_def :
  let bs := table_blocks usable_w gap tbl_def in
  existsb (in_style "H1") bs = truthy (dict_get (tbl_heading tbl_def) "")
  /\ existsb is_rule bs = truthy (dict_get (tbl_heading tbl_def) "")
  /\ existsb is_table bs
     = truthy (dict_get (tbl_headers tbl_def) [])
       && truthy (dict_get (tbl_rows tbl_def) [])
  /\ existsb (in_style "Caption") bs = truthy (dict_get (tbl_caption tbl_def) "").
Proof.
  unfold table_blocks, table_heading_blocks, table_grid_blocks,
    table_caption_blocks. cbn zeta.
  rewrite !existsb_app.
  split_and!;
    by destruct (truthy (dict_get (tbl_heading tbl_def) "")),
      (truthy (dict_get (tbl_caption tbl_def) "")),
      (truthy (dict_get (tbl_headers tbl_def) [])
       && truthy (dict_get (tbl_rows tbl_def) [])).
Qed.



(** ** Newlines in body text *)

Lemma str_replace_newline_cons (c : ascii) (s new : string) :
  str_replace (String c s) newline new
  = if Ascii.eqb c "010" then (new ++ str_replace s newline new)%string
    else String c (str_replace s newline new).
Proof.
  unfold str_replace, newline. cbn [replace_from String.prefix String.length Nat.sub].
  destruct (Ascii.eqb_spec c "010") as [-> | Hc].
  - destruct (ascii_dec "010" "010") as [_ | ?]; [by destruct s | done].
  - destruct (ascii_dec "010" c) as [E | _]; [by subst | done].
Qed.

Lemma string_append_assoc (a b c : string) :
  ((a ++ b) ++ c = a ++ (b ++ c))%string.
Proof.
  induction a as [|x a IH]; [reflexivity |].
  change (String x ((a ++ b) ++ c) = String x (a ++ (b ++ c)))%string.
  by rewrite IH.
Qed.

Lemma str_replace_newline_app (a b new : string) :
  str_replace (a ++ b) newline new
  = (str_replace a newline new ++ str_replace b newline new)%string.
Proof.
  induction a as [|c a IH]; [done |].
  change (String c a ++ b)%string with (String c (a ++ b)).
  rewrite !str_replace_newline_cons, IH.
  destruct (Ascii.eqb c "010"); [| done].
  by rewrite string_append_assoc.
Qed.

Lemma str_replace_no_newline (s : string) :
  has_char "010" (str_replace s newline "<br/>") = false.
Proof.
  induction s as [|c s IH]; [done |].
  rewrite str_replace_newline_cons.
  destruct (Ascii.eqb_spec c "010") as [-> | Hc].
  - exact IH.
  - unfold has_char in *. cbn [list_ascii_of_string existsb].
    rewrite IH, orb_false_r. apply Ascii.eqb_neq. congruence.
Qed.







(** * Further properties of the report generator *)

(** ** Stories of the text and the table report *)



(** ** Page breaks *)

Lemma section_blocks_no_break gap sec :
  List.filter is_page_break (section_blocks gap sec) = [].
Proof.
  unfold section_blocks, section_heading_blocks, section_body_blocks,
    section_bullet_blocks.
  rewrite !List.filter_app.
  destruct (truthy (dict_get (sec_heading sec) "")),
    (truthy (dict_get (sec_body sec) "")); cbn [List.filter is_page_break app];
    induction (dict_get (sec_bullets sec) []) as [|b bs IH]; done.
Qed.

Lemma table_blocks_no_break usable_w gap tbl_def :
  List.filter is_page_break (table_blocks usable_w gap tbl_def) = [].
Proof.
  unfold table_blocks, table_heading_blocks, table_grid_blocks,
    table_caption_blocks.
  rewrite !List.filter_app.
  by destruct (truthy (dict_get (tbl_heading tbl_def) "")),
    (truthy (dict_get (tbl_caption tbl_def) "")),
    (truthy (dict_get (tbl_headers tbl_def) [])
     && truthy (dict_get (tbl_rows tbl_def) [])).
Qed.


(** ** The table builder: cell matrix and explicit widths *)

Lemma _build_pdf_table_explicit headers rows ws page_width :
  _build_pdf_table headers rows (Some ws) page_width
  = Ok (Table (table_data (pdf_table headers rows page_width)) ws 1 table_style).
Proof.
  unfold _build_pdf_table, pdf_table. cbn [bind ret result_monad table_data].
  rewrite (comprehension_ok _
    (fun h => Paragraph ("<b>" ++ h ++ "</b>") Body_style)).
  2:{ intros h. by rewrite getitem_Body. }
  rewrite (comprehension_ok _
    (map (fun cell => Paragraph (py_str cell) Body_style))).
  2:{ intros row. apply comprehension_ok. intros cell. by rewrite getitem_Body. }
  reflexivity.
Qed.


(** ** Tables fit the frame *)

Lemma Forall_concat_map {A} (P : Flowable -> Prop) (f : A -> list Flowable) xs :
  (forall x, Forall P (f x)) -> Forall P (List.concat (map f xs)).
Proof.
  intros Hf. induction xs as [|x xs IH]; cbn [map List.concat].
  - constructor.
  - apply Forall_app. by split.
Qed.

Lemma table_grid_fits usable_w tbl_def :
  Forall (fun b => (Qsum (table_widths b) == usable_w)%Q)
         (table_grid_blocks usable_w tbl_def).
Proof.
  unfold table_grid_blocks.
  destruct (truthy _ && truthy _); constructor; [| constructor].
  cbn [pdf_table table_widths].
  rewrite Qsum_repeat. apply Qmult_div_r, columns_not_zero.
Qed.

Lemma banner_fits title usable_w :
  (Qsum (table_widths (banner title usable_w)) == usable_w)%Q.
Proof. unfold Qsum. cbn. ring. Qed.


(** ** Bullets *)

Lemma section_blocks_bullets gap sec :
  List.filter (in_style "Bullet") (section_blocks gap sec)
  = map (fun bullet => Paragraph ("• " ++ bullet) Bullet_style)
        (dict_get (sec_bullets sec) []).
Proof.
  unfold section_blocks, section_heading_blocks, section_body_blocks,
    section_bullet_blocks.
  rewrite !List.filter_app.
  assert (Hall : forall bs : list string,
    List.filter (in_style "Bullet")
      (map (fun bullet => Paragraph ("• " ++ bullet) Bullet_style) bs)
    = map (fun bullet => Paragraph ("• " ++ bullet) Bullet_style) bs).
  { induction bs as [|b bs IH]; cbn [map List.filter in_style]; [done |].
    cbn. by rewrite IH. }
  rewrite Hall.
  destruct (truthy (dict_get (sec_heading sec) "")),
    (truthy (dict_get (sec_body sec) "")),
    (dict_get (sec_level sec) 1 =? 1)%Z;
    cbn [List.filter in_style app]; cbn; by rewrite app_nil_r.
Qed.


(** ** More on newline replacement *)

Lemma string_length_append (a b : string) :
  String.length (a ++ b) = (String.length a + String.length b)%nat.
Proof.
  induction a as [|c a IH]; [reflexivity |].
  change (S (String.length (a ++ b)) = S (String.length a + String.length b)%nat).
  by rewrite IH.
Qed.

(** X7: text that contains no newline character is left unchanged by the
    replacement applied to bodies, intros and summaries. *)
Theorem newline_free_text_unchanged (s new : string) :
  has_char "010" s = false ->
  str_replace s newline new = s.
Proof.
  induction s as [|c s IH]; intros Hs; [reflexivity |].
  rewrite str_replace_newline_cons.
  unfold has_char in Hs. cbn [list_ascii_of_string existsb] in Hs.
  apply orb_false_iff in Hs as [Hc Hrest].
  rewrite Ascii.eqb_sym, Hc. by rewrite IH.
Qed.

Lemma newline_free_text_unchanged_witness :
  has_char "010" "Body text here." = false
  /\ str_replace "Body text here." newline "<br/>" = "Body text here.".
Proof.
  split; [reflexivity |].
  apply (newline_free_text_unchanged "Body text here." "<br/>"). reflexivity.
Defined.

(** X8: replacing the newlines of a text by [new] removes one character per
    newline and adds the characters of [new] for it; with "<br/>" the text
    grows by four characters per newline. *)
Theorem str_replace_length (s new : string) :
  (String.length (str_replace s newline new) + count_char "010" s
   = String.length s + count_char "010" s * String.length new)%nat
  /\ String.length (str_replace s newline "<br/>")
     = (String.length s + 4 * count_char "010" s)%nat.
Proof.
  assert (Hgen : forall new',
    (String.length (str_replace s newline new') + count_char "010" s
     = String.length s + count_char "010" s * String.length new')%nat).
  { intros new'. induction s as [|c s IH]; [reflexivity |].
    rewrite str_replace_newline_cons. cbn [count_char String.length].
    rewrite (Ascii.eqb_sym "010" c).
    destruct (Ascii.eqb c "010").
    - rewrite string_length_append. lia.
    - cbn [String.length]. lia. }
  split; [apply Hgen |].
  specialize (Hgen "<br/>"). cbn [String.length] in Hgen. lia.
Qed.

(** ** Successive page callbacks *)

Lemma decorations_run today (calls : list (_PageTemplate * Doc)) :
  forall c,
    run (for_each calls (fun call => _PageTemplate_call (fst call) today (snd call))) c
    = Ok (tt, mkCanvas (gstate c) (saved c)
                (page_ops c
                 ++ List.concat
                      (map (fun call =>
                              op_save :: decoration (fst call) today (snd call) (gstate c)
                                      ++ [op_restore]) calls))).
Proof.
  induction calls as [|call calls IH]; intros c.
  - cbn. rewrite app_nil_r. by destruct c.
  - cbn [for_each map List.concat]. rewrite run_bind, _PageTemplate_call_run.
    rewrite IH. cbn [gstate saved page_ops]. by rewrite <- app_assoc.
Qed.

(** X9: any sequence of page-callback invocations on one canvas, whatever
    the templates and the pages, returns with the fill colour, the font and
    the saved-state stack of the canvas as they were before the first
    invocation; each invocation therefore starts from the same graphics
    state and adds its own save, drawing and restore to the page
    operators. *)
Theorem callbacks_preserve_canvas_state today
    (calls : list (_PageTemplate * Doc)) (c : Canvas) :
  exists c',
    run (for_each calls (fun call => _PageTemplate_call (fst call) today (snd call))) c
      = Ok (tt, c')
    /\ gstate c' = gstate c
    /\ saved c' = saved c
    /\ ops_added c c'
       = List.concat
           (map (fun call =>
                   op_save :: decoration (fst call) today (snd call) (gstate c)
                           ++ [op_restore]) calls).
Proof.
  eexists. split; [apply decorations_run |].
  split_and!; [reflexivity | reflexivity | apply ops_added_app].
Qed.

(** * Properties of the callers in pdf_processor.py *)

(** ** Python list indexing *)

Lemma py_index_nonneg {A} (l : list A) (k : Z) :
  (0 <= k)%Z -> py_index l k = l !! Z.to_nat k.
Proof. intros Hk. unfold py_index. by destruct (Z.leb_spec 0 k); [| lia]. Qed.

Lemma py_index_negative {A} (l : list A) (k : Z) :
  (- Z.of_nat (List.length l) <= k < 0)%Z ->
  py_index l k = l !! Z.to_nat (k + Z.of_nat (List.length l)).
Proof.
  intros Hk. unfold py_index.
  destruct (Z.leb_spec 0 k); [lia |].
  by destruct (Z.leb_spec (- Z.of_nat (List.length l)) k); [| lia].
Qed.

Lemma py_index_too_negative {A} (l : list A) (k : Z) :
  (k < - Z.of_nat (List.length l))%Z -> py_index l k = None.
Proof.
  intros Hk. unfold py_index.
  destruct (Z.leb_spec 0 k); [lia |].
  by destruct (Z.leb_spec (- Z.of_nat (List.length l)) k); [lia |].
Qed.

(** ** Single pages and page ranges *)

(** X10: [extract_text_by_page] returns exactly when the file exists and
    the 1-based page number lies between 1 and the page count, and then
    returns the text of that page (the empty string when the page has no
    text); a missing file raises FileNotFoundError, a page number below 1
    or above the page count raises ValueError, and no index error can
    occur. *)
Theorem extract_text_by_page_bounds (fs : gmap string (list (option string)))
    (pdf_path : string) (page_number : Z) :
  match extract_text_by_page fs pdf_path page_number with
  | Returned text =>
      exists pages page,
        fs !! pdf_path = Some pages
        /\ (1 <= page_number <= Z.of_nat (List.length pages))%Z
        /\ pages !! Z.to_nat (page_number - 1) = Some page
        /\ text = text_or_empty page
  | Raised (FileNotFoundError _) => fs !! pdf_path = None
  | Raised (ValueError _) =>
      exists pages,
        fs !! pdf_path = Some pages
        /\ ((page_number < 1)%Z \/ (Z.of_nat (List.length pages) < page_number)%Z)
  | Raised ListIndexError => False
  end.
Proof.
  unfold extract_text_by_page.
  destruct (fs !! pdf_path) as [pages |] eqn:Hfs; [| done].
  destruct (Z.ltb_spec page_number 1) as [Hlo | Hlo]; cbn [orb].
  { exists pages. auto. }
  destruct (Z.ltb_spec (Z.of_nat (List.length pages)) page_number) as [Hhi | Hhi].
  { exists pages. auto. }
  rewrite py_index_nonneg by lia.
  destruct (pages !! Z.to_nat (page_number - 1)) as [page |] eqn:Hpage.
  - exists pages, page. split_and!; [done | lia | lia | done | done].
  - apply lookup_ge_None in Hpage. lia.
Qed.

Lemma page_range_loop_spec (pages : list (option string)) (indices : list Z) :
  forall result,
    (forall i, i ∈ indices -> is_Some (py_index pages (i - 1))) ->
    exists d,
      page_range_loop pages indices result = Returned d
      /\ forall j, d !! j = if bool_decide (j ∈ indices)
                            then text_or_empty <$> py_index pages (j - 1)
                            else result !! j.
Proof.
  induction indices as [|i rest IH]; intros result Hall.
  - exists result. split; [done |]. intros j.
    rewrite bool_decide_eq_false_2; [done | apply not_elem_of_nil].
  - cbn [page_range_loop].
    destruct (Hall i) as [page Hpage]; [left |]. rewrite Hpage.
    destruct (IH (<[i := text_or_empty page]> result)) as (d & Hd & Hlook).
    { intros k Hk. apply Hall. by right. }
    exists d. split; [done |]. intros j. rewrite Hlook.
    destruct (decide (j ∈ rest)) as [Hin | Hnin].
    + rewrite !bool_decide_eq_true_2; [done | by right | done].
    + rewrite (bool_decide_eq_false_2 (j ∈ rest)) by done.
      destruct (decide (j = i)) as [-> | Hne].
      * rewrite bool_decide_eq_true_2 by left.
        by rewrite (lookup_insert_eq (M := gmap Z)), Hpage.
      * rewrite bool_decide_eq_false_2.
        -- by rewrite (lookup_insert_ne (M := gmap Z)).
        -- intros [? | ?]%elem_of_cons; done.
Qed.

Lemma elem_of_py_range (i start stop : Z) :
  i ∈ py_range start stop <-> (start <= i < stop)%Z.
Proof. unfold py_range. rewrite elem_of_seqZ. lia. Qed.

(** X11: for an existing file and [start >= 1], [extract_text_page_range]
    returns a dict whose keys are exactly the page numbers from [start] to
    [min(end, page count)] and whose value at each key is the text of that
    page; an [end] beyond the last page is clipped, and a [start] beyond
    the clipped end gives the empty dict. *)
Theorem extract_text_page_range_clips (fs : gmap string (list (option string)))
    (pdf_path : string) (pages : list (option string)) (start end_ : Z) :
  fs !! pdf_path = Some pages ->
  (1 <= start)%Z ->
  exists d,
    extract_text_page_range fs pdf_path start end_ = Returned d
    /\ (forall i,
          d !! i =
          if bool_decide (start <= i <= Z.min end_ (Z.of_nat (List.length pages)))%Z
          then text_or_empty <$> pages !! Z.to_nat (i - 1)
          else None)
    /\ (forall i,
          (start <= i <= Z.min end_ (Z.of_nat (List.length pages)))%Z ->
          is_Some (d !! i)).
Proof.
  intros Hfs Hstart. unfold extract_text_page_range. rewrite Hfs.
  set (m := Z.min end_ (Z.of_nat (List.length pages))).
  destruct (page_range_loop_spec pages (py_range start (m + 1)) ∅)
    as (d & Hd & Hlook).
  { intros i Hi%elem_of_py_range. rewrite py_index_nonneg by lia.
    apply lookup_lt_is_Some. lia. }
  assert (Hkey : forall i,
    d !! i = if bool_decide (start <= i <= m)%Z
             then text_or_empty <$> pages !! Z.to_nat (i - 1) else None).
  { intros i. rewrite Hlook.
    destruct (decide (start <= i <= m)%Z) as [Hin | Hout].
    - rewrite !bool_decide_eq_true_2; [| done | apply elem_of_py_range; lia].
      by rewrite py_index_nonneg by lia.
    - rewrite !bool_decide_eq_false_2; [done | done |].
      rewrite elem_of_py_range. lia. }
  exists d. split_and!; [done | done |].
  intros i Hi. rewrite Hkey, bool_decide_eq_true_2 by done.
  apply fmap_is_Some, lookup_lt_is_Some. lia.
Qed.

Lemma extract_text_page_range_clips_witness :
  exists d,
    extract_text_page_range
      {["multi.pdf" := [Some "Page 1"; Some "Page 2"; Some "Page 3"]]}
      "multi.pdf" 2 999 = Returned d
    /\ d !! 3%Z = Some "Page 3"
    /\ d !! 4%Z = None.
Proof.
  destruct (extract_text_page_range_clips
              {["multi.pdf" := [Some "Page 1"; Some "Page 2"; Some "Page 3"]]}
              "multi.pdf" [Some "Page 1"; Some "Page 2"; Some "Page 3"] 2 999)
    as (d & Hd & Hkey & _); [reflexivity | lia |].
  exists d. split; [exact Hd |].
  split; rewrite Hkey; reflexivity.
Defined.

(** X12: [extract_text_page_range] does not validate [start]: for a
    [start] between [1 - page count] and 0 the call still returns, and a key
    [i <= 0] of the result holds the text of the page counted from the end
    ([pages[i - 1]] with a negative index); in particular key 0 holds the
    text of the last page. *)
Theorem extract_text_page_range_wraps (fs : gmap string (list (option string)))
    (pdf_path : string) (pages : list (option string)) (start end_ : Z) :
  fs !! pdf_path = Some pages ->
  (1 - Z.of_nat (List.length pages) <= start <= 0)%Z ->
  exists d,
    extract_text_page_range fs pdf_path start end_ = Returned d
    /\ forall i,
         (start <= i <= Z.min end_ 0)%Z ->
         d !! i
         = text_or_empty
             <$> pages !! Z.to_nat (Z.of_nat (List.length pages) + i - 1).
Proof.
  intros Hfs Hstart. unfold extract_text_page_range. rewrite Hfs.
  set (total := Z.of_nat (List.length pages)) in *.
  set (m := Z.min end_ total).
  destruct (page_range_loop_spec pages (py_range start (m + 1)) ∅)
    as (d & Hd & Hlook).
  { intros i Hi%elem_of_py_range.
    destruct (Z.le_gt_cases 1 i).
    - rewrite py_index_nonneg by lia. apply lookup_lt_is_Some. lia.
    - rewrite py_index_negative by (fold total; lia).
      apply lookup_lt_is_Some. fold total. lia. }
  exists d. split; [done |].
  intros i Hi. rewrite Hlook.
  rewrite bool_decide_eq_true_2 by (apply elem_of_py_range; lia).
  rewrite py_index_negative by (fold total; lia).
  fold total. do 2 f_equal. lia.
Qed.

Lemma extract_text_page_range_wraps_witness :
  exists d,
    extract_text_page_range
      {["multi.pdf" := [Some "Page 1"; Some "Page 2"; Some "Page 3"]]}
      "multi.pdf" 0 1 = Returned d
    /\ d !! 0%Z = Some "Page 3".
Proof.
  destruct (extract_text_page_range_wraps
              {["multi.pdf" := [Some "Page 1"; Some "Page 2"; Some "Page 3"]]}
              "multi.pdf" [Some "Page 1"; Some "Page 2"; Some "Page 3"] 0 1)
    as (d & Hd & Hkey); [reflexivity | cbn; lia |].
  exists d. split; [exact Hd |].
  rewrite Hkey by lia. reflexivity.
Defined.

(** X13: when [start] lies below [1 - page count] and the range is not
    empty, [extract_text_page_range] raises an IndexError from the first
    page lookup. *)
Theorem extract_text_page_range_index_error
    (fs : gmap string (list (option string)))
    (pdf_path : string) (pages : list (option string)) (start end_ : Z) :
  fs !! pdf_path = Some pages ->
  (start < 1 - Z.of_nat (List.length pages))%Z ->
  (start <= end_)%Z ->
  extract_text_page_range fs pdf_path start end_ = Raised ListIndexError.
Proof.
  intros Hfs Hstart Hend. unfold extract_text_page_range. rewrite Hfs.
  set (total := Z.of_nat (List.length pages)) in *.
  unfold py_range.
  replace (Z.min end_ total + 1 - start)%Z
    with (Z.succ (Z.min end_ total - start))%Z by lia.
  rewrite seqZ_cons by lia. cbn [page_range_loop].
  by rewrite py_index_too_negative by (fold total; lia).
Qed.

Lemma extract_text_page_range_index_error_witness :
  extract_text_page_range
    {["one.pdf" := [Some "only page"]]} "one.pdf" (-1) 1
  = Raised ListIndexError.
Proof.
  apply (extract_text_page_range_index_error
           {["one.pdf" := [Some "only page"]]} "one.pdf" [Some "only page"]);
    [reflexivity | cbn; lia | lia].
Defined.

(** ** Merging *)

Lemma merge_inner_loop {P} (pages writer : list P) (total_pages : Z) :
  foldl (fun acc page => (fst acc ++ [page], (snd acc + 1)%Z))
        (writer, total_pages) pages
  = (writer ++ pages, (total_pages + Z.of_nat (List.length pages))%Z).
Proof.
  revert writer total_pages.
  induction pages as [|p pages IH]; intros writer total_pages.
  - cbn. by rewrite app_nil_r, Z.add_0_r.
  - cbn [foldl fst snd]. rewrite IH, <- app_assoc. cbn [app Datatypes.length].
    f_equal. lia.
Qed.

Lemma merge_loop_all_exist {P} (fs : gmap string (list P)) paths docs :
  Forall2 (fun path doc => fs !! path = Some doc) paths docs ->
  forall writer total_pages,
    merge_loop fs paths writer total_pages
    = Returned (writer ++ List.concat docs,
                (total_pages + Z.of_nat (List.length (List.concat docs)))%Z).
Proof.
  induction 1 as [|path doc paths docs Hdoc _ IH]; intros writer total_pages.
  - cbn. by rewrite app_nil_r, Z.add_0_r.
  - cbn [merge_loop List.concat]. rewrite Hdoc, merge_inner_loop, IH.
    rewrite <- app_assoc, length_app. do 2 f_equal. lia.
Qed.

(** X14: when every input path exists, [merge_pdfs] writes to the output
    path the pages of the inputs in the order of the list (an input listed
    twice is merged twice), leaves every other file as it was, and returns
    the number of pages written, the sum of the page counts of the
    inputs. *)
Theorem merge_pdfs_concatenates {P} (fs : gmap string (list P))
    (input_paths : list string) (docs : list (list P)) (output_path : string) :
  Forall2 (fun path doc => fs !! path = Some doc) input_paths docs ->
  exists fs',
    merge_pdfs fs input_paths output_path
      = Returned (Z.of_nat (List.length (List.concat docs)), fs')
    /\ fs' !! output_path = Some (List.concat docs)
    /\ delete output_path fs' = delete output_path fs
    /\ Z.of_nat (List.length (List.concat docs))
       = foldr Z.add 0%Z (map (fun doc => Z.of_nat (List.length doc)) docs).
Proof.
  intros Hall. unfold merge_pdfs.
  rewrite (merge_loop_all_exist fs input_paths docs Hall). cbn [app Z.add].
  eexists. split; [reflexivity |]. split_and!.
  - apply (lookup_insert_eq (M := gmap string)).
  - apply (delete_insert_eq (M := gmap string)).
  - clear Hall. induction docs as [|doc docs IH]; [done |].
    cbn [List.concat map foldr]. rewrite length_app, <- IH. lia.
Qed.

Lemma merge_pdfs_concatenates_witness :
  exists fs',
    merge_pdfs ({["a.pdf" := ["A"]]} ∪ {["b.pdf" := ["B1"; "B2"]]})
               ["a.pdf"; "b.pdf"] "m.pdf"
      = Returned (3%Z, fs')
    /\ fs' !! "m.pdf" = Some ["A"; "B1"; "B2"].
Proof.
  destruct (merge_pdfs_concatenates
              ({["a.pdf" := ["A"]]} ∪ {["b.pdf" := ["B1"; "B2"]]})
              ["a.pdf"; "b.pdf"] [["A"]; ["B1"; "B2"]] "m.pdf")
    as (fs' & Hrun & Hout & _).
  { repeat constructor. }
  exists fs'. split; [exact Hrun | exact Hout].
Defined.



(** ** Splitting *)

Lemma chunk_pages {P} (pages : list P) (chunk_start chunk_end : Z) :
  (0 <= chunk_start <= chunk_end)%Z ->
  (chunk_end <= Z.of_nat (List.length pages))%Z ->
  mapM (py_index pages) (py_range chunk_start chunk_end)
  = Some (take (Z.to_nat (chunk_end - chunk_start))
               (drop (Z.to_nat chunk_start) pages)).
Proof.
  intros Hs He. apply mapM_Some.
  apply Forall2_same_length_lookup_2.
  - unfold py_range. rewrite length_seqZ, length_take, length_drop. lia.
  - intros i k p Hk Hp. unfold py_range in Hk.
    apply lookup_seqZ in Hk as [-> Hi].
    rewrite py_index_nonneg by lia.
    apply lookup_take_Some in Hp as [Hp _].
    rewrite lookup_drop in Hp. rewrite <- Hp. f_equal. lia.
Qed.

Lemma split_loop_chunks {P} (join : string -> string -> string)
    (pages : list P) (stem output_dir : string) (pages_per_chunk : Z) :
  (1 <= pages_per_chunk)%Z ->
  forall fuel chunk_start chunk_num output_files written,
    (0 <= chunk_start <= Z.of_nat (List.length pages))%Z ->
    (Z.of_nat (List.length pages) - chunk_start <= Z.of_nat fuel)%Z ->
    exists ws,
      split_loop fuel join pages stem output_dir pages_per_chunk
                 chunk_start chunk_num output_files written
        = Some (Returned (output_files ++ map fst ws, written ++ ws))
      /\ List.concat (map snd ws) = drop (Z.to_nat chunk_start) pages
      /\ Forall (fun w => (1 <= Z.of_nat (List.length (snd w)) <= pages_per_chunk)%Z) ws
      /\ Z.of_nat (List.length ws)
         = ((Z.of_nat (List.length pages) - chunk_start + pages_per_chunk - 1)
            / pages_per_chunk)%Z.
Proof.
  intros Hppc. set (total := Z.of_nat (List.length pages)).
  induction fuel as [|fuel IH];
    intros chunk_start chunk_num output_files written Hcs Hfuel.
  - assert (chunk_start = total) as -> by lia.
    exists []. unfold split_loop. fold total. rewrite Z.ltb_irrefl.
    rewrite !app_nil_r. split_and!; [done | | constructor |].
    + cbn. unfold total. rewrite Nat2Z.id. by rewrite drop_all.
    + cbn. replace (total - total + pages_per_chunk - 1)%Z
        with (pages_per_chunk - 1)%Z by lia.
      symmetry. apply Z.div_small. lia.
  - cbn [split_loop]. fold total.
    destruct (Z.ltb_spec chunk_start total) as [Hlt | Hge].
    + set (chunk_end := Z.min (chunk_start + pages_per_chunk) total).
      assert (Hce : (chunk_start < chunk_end <= total)%Z) by (unfold chunk_end; lia).
      rewrite chunk_pages by (fold total; lia).
      edestruct IH as (ws & Hrun & Hcat & Hsize & Hlen); [| | rewrite Hrun].
      { split; [| apply Hce]. lia. }
      { lia. }
      eexists ((_, _) :: ws). rewrite <- !app_assoc. cbn [app map fst].
      split_and!; [reflexivity | | |].
      * cbn [map snd List.concat]. rewrite Hcat.
        rewrite <- (take_drop (Z.to_nat (chunk_end - chunk_start))
                      (drop (Z.to_nat chunk_start) pages)) at 2.
        f_equal. rewrite drop_drop. f_equal. lia.
      * constructor; [| done]. cbn [snd].
        rewrite length_take, length_drop. unfold chunk_end in *. fold total. lia.
      * cbn [Datatypes.length]. rewrite Nat2Z.inj_succ, Hlen.
        unfold chunk_end in *.
        destruct (Z.le_gt_cases (chunk_start + pages_per_chunk) total).
        -- rewrite Z.min_l by done.
           replace (total - chunk_start + pages_per_chunk - 1)%Z
             with ((total - (chunk_start + pages_per_chunk) + pages_per_chunk - 1)
                   + 1 * pages_per_chunk)%Z by lia.
           rewrite Z.div_add by lia. lia.
        -- rewrite Z.min_r by lia.
           replace (total - total + pages_per_chunk - 1)%Z
             with (pages_per_chunk - 1)%Z by lia.
           rewrite (Z.div_small (pages_per_chunk - 1)) by lia.
           replace (total - chunk_start + pages_per_chunk - 1)%Z
             with ((total - chunk_start - 1) + 1 * pages_per_chunk)%Z by lia.
           rewrite Z.div_add by lia.
           rewrite (Z.div_small (total - chunk_start - 1)) by lia. lia.
    + assert (chunk_start = total) as -> by lia.
      exists []. rewrite !app_nil_r. split_and!; [done | | constructor |].
      * cbn. unfold total. rewrite Nat2Z.id. by rewrite drop_all.
      * cbn. replace (total - total + pages_per_chunk - 1)%Z
          with (pages_per_chunk - 1)%Z by lia.
        symmetry. apply Z.div_small. lia.
Qed.

(** X16: for an existing file and [pages_per_chunk >= 1], [split_pdf]
    terminates (within as many iterations as the file has pages) and writes
    chunks that, concatenated in the order written, are exactly the pages of
    the file: no page is lost, repeated or reordered; every chunk holds at
    least one and at most [pages_per_chunk] pages, the returned paths are
    the paths written, in order, and their number is the page count divided
    by [pages_per_chunk], rounded up. *)
Theorem split_pdf_partitions {P} (fuel : nat) (stem_of : string -> string)
    (join : string -> string -> string) (fs : gmap string (list P))
    (pdf_path output_dir : string) (pages : list P) (pages_per_chunk : Z) :
  fs !! pdf_path = Some pages ->
  (1 <= pages_per_chunk)%Z ->
  (List.length pages <= fuel)%nat ->
  exists output_files written,
    split_pdf fuel stem_of join fs pdf_path output_dir pages_per_chunk
      = Some (Returned (output_files, written))
    /\ output_files = map fst written
    /\ List.concat (map snd written) = pages
    /\ Forall (fun w => (1 <= Z.of_nat (List.length (snd w)) <= pages_per_chunk)%Z)
              written
    /\ Z.of_nat (List.length output_files)
       = ((Z.of_nat (List.length pages) + pages_per_chunk - 1) / pages_per_chunk)%Z.
Proof.
  intros Hfs Hppc Hfuel. unfold split_pdf. rewrite Hfs.
  destruct (split_loop_chunks join pages (stem_of pdf_path) output_dir
              pages_per_chunk Hppc fuel 0%Z 1%Z [] [])
    as (ws & Hrun & Hcat & Hsize & Hlen); [lia | lia |].
  exists (map fst ws), ws. cbn [app] in Hrun.
  split_and!; [done | done | done | done |].
  rewrite length_map, Hlen. f_equal. lia.
Qed.

Lemma split_pdf_partitions_witness :
  exists output_files written,
    split_pdf 3 (fun _ => "multi") (fun d f => d ++ "/" ++ f)%string
              {["multi.pdf" := ["p1"; "p2"; "p3"]]} "multi.pdf" "chunks" 2
      = Some (Returned (output_files, written))
    /\ List.concat (map snd written) = ["p1"; "p2"; "p3"]
    /\ Z.of_nat (List.length output_files) = 2%Z.
Proof.
  destruct (split_pdf_partitions 3 (fun _ => "multi")
              (fun d f => d ++ "/" ++ f)%string
              {["multi.pdf" := ["p1"; "p2"; "p3"]]} "multi.pdf" "chunks"
              ["p1"; "p2"; "p3"] 2)
    as (files & written & Hrun & _ & Hcat & _ & Hlen);
    [reflexivity | lia | cbn; lia |].
  exists files, written. split_and!; [exact Hrun | exact Hcat | exact Hlen].
Defined.

Lemma split_loop_never_exits {P} (join : string -> string -> string)
    (pages : list P) (stem output_dir : string) (pages_per_chunk : Z) :
  (pages_per_chunk <= 0)%Z ->
  pages <> [] ->
  forall fuel chunk_start chunk_num output_files written,
    (chunk_start <= 0)%Z ->
    split_loop fuel join pages stem output_dir pages_per_chunk
               chunk_start chunk_num output_files written = None.
Proof.
  intros Hppc Hpages.
  assert (Htotal : (0 < Z.of_nat (List.length pages))%Z) by (destruct pages; [done | cbn; lia]).
  induction fuel as [|fuel IH];
    intros chunk_start chunk_num output_files written Hcs; cbn [split_loop];
    (destruct (Z.ltb_spec chunk_start (Z.of_nat (List.length pages))); [| lia]);
    [done |].
  unfold py_range. rewrite seqZ_nil by lia. cbn.
  apply IH. lia.
Qed.

(** X17: with [pages_per_chunk <= 0] and a file of at least one page,
    [split_pdf] never returns: the loop variable [chunk_start] never
    advances past 0, so the [while] loop does not exit within any number of
    iterations (it keeps writing empty chunks). *)
Theorem split_pdf_nonpositive_chunk_diverges {P} (stem_of : string -> string)
    (join : string -> string -> string) (fs : gmap string (list P))
    (pdf_path output_dir : string) (pages : list P) (pages_per_chunk : Z) :
  fs !! pdf_path = Some pages ->
  pages <> [] ->
  (pages_per_chunk <= 0)%Z ->
  forall fuel,
    split_pdf fuel stem_of join fs pdf_path output_dir pages_per_chunk = None.
Proof.
  intros Hfs Hpages Hppc fuel. unfold split_pdf. rewrite Hfs.
  by apply split_loop_never_exits.
Qed.

Lemma split_pdf_nonpositive_chunk_diverges_witness :
  split_pdf 1000 (fun _ => "a") (fun d f => d ++ "/" ++ f)%string
            {["a.pdf" := ["p1"]]} "a.pdf" "out" 0
  = None.
Proof.
  apply (split_pdf_nonpositive_chunk_diverges (fun _ => "a")
           (fun d f => d ++ "/" ++ f)%string {["a.pdf" := ["p1"]]}
           "a.pdf" "out" ["p1"] 0); [reflexivity | discriminate | lia].
Defined.

Lemma split_loop_single_pages {P} (join : string -> string -> string)
    (pages : list P) (stem output_dir : string) :
  forall fuel k chunk_num output_files written,
    (k <= List.length pages)%nat ->
    (List.length pages - k <= fuel)%nat ->
    split_loop fuel join pages stem output_dir 1
               (Z.of_nat k) chunk_num output_files written
    = let ws := imap (fun i page =>
                        (join output_dir
                           (stem ++ "_page_" ++ pretty (Z.of_nat (k + i) + 1)%Z
                            ++ ".pdf")%string,
                         [page]))
                     (drop k pages) in
      Some (Returned (output_files ++ map fst ws, written ++ ws)).
Proof.
  induction fuel as [|fuel IH]; intros k chunk_num output_files written Hk Hfuel.
  - assert (k = List.length pages) as -> by lia.
    cbn [split_loop]. rewrite Z.ltb_irrefl, drop_all. cbn. by rewrite !app_nil_r.
  - cbn [split_loop].
    destruct (Z.ltb_spec (Z.of_nat k) (Z.of_nat (List.length pages))) as [Hlt | Hge].
    + rewrite Z.min_l by lia.
      rewrite chunk_pages by lia.
      replace (Z.to_nat (Z.of_nat k + 1 - Z.of_nat k)) with 1%nat by lia.
      rewrite Nat2Z.id.
      destruct (lookup_lt_is_Some_2 pages k) as [page Hpage]; [lia |].
      rewrite (drop_S _ _ _ Hpage). cbn [take imap map fst].
      replace (Z.of_nat k + 1)%Z with (Z.of_nat (S k)) by lia.
      rewrite IH by lia. cbn zeta. rewrite <- !app_assoc. cbn [app].
      rewrite Nat.add_0_r.
      replace (Z.of_nat k + 1)%Z with (Z.of_nat (S k)) by lia.
      assert (Himap :
        imap ((fun i page' =>
                 (join output_dir
                    (stem ++ "_page_" ++ pretty (Z.of_nat (k + i) + 1)%Z
                     ++ ".pdf")%string, [page'])) ∘ S) (drop (S k) pages)
        = imap (fun i page' =>
                  (join output_dir
                     (stem ++ "_page_" ++ pretty (Z.of_nat (S k + i) + 1)%Z
                      ++ ".pdf")%string, [page'])) (drop (S k) pages)).
      { apply imap_ext. intros i x _. unfold compose.
        by replace (k + S i)%nat with (S k + i)%nat by lia. }
      rewrite Himap. reflexivity.
    + assert (k = List.length pages) as -> by lia.
      rewrite drop_all. cbn. by rewrite !app_nil_r.
Qed.

(** X18: with [pages_per_chunk = 1] (the default), [split_pdf] writes one
    file per page, in page order: the file for the i-th page (counting from
    1) is named "<stem>_page_<i>.pdf" inside the output directory and holds
    exactly that page, and the returned list is the list of these paths. *)
Theorem split_pdf_one_file_per_page {P} (fuel : nat) (stem_of : string -> string)
    (join : string -> string -> string) (fs : gmap string (list P))
    (pdf_path output_dir : string) (pages : list P) :
  fs !! pdf_path = Some pages ->
  (List.length pages <= fuel)%nat ->
  let written :=
    imap (fun i page =>
            (join output_dir
               (stem_of pdf_path ++ "_page_" ++ pretty (Z.of_nat i + 1)%Z
                ++ ".pdf")%string,
             [page]))
         pages in
  split_pdf fuel stem_of join fs pdf_path output_dir 1
  = Some (Returned (map fst written, written)).
Proof.
  intros Hfs Hfuel written. unfold split_pdf. rewrite Hfs.
  pose proof (split_loop_single_pages join pages (stem_of pdf_path) output_dir
                fuel 0 1%Z [] [] ltac:(lia) ltac:(lia)) as Hrun.
  cbn [Z.of_nat drop app Nat.add] in Hrun. exact Hrun.
Qed.

Lemma split_pdf_one_file_per_page_witness :
  split_pdf 2 (fun _ => "doc") (fun d f => d ++ "/" ++ f)%string
            {["doc.pdf" := ["first"; "second"]]} "doc.pdf" "pages" 1
  = Some (Returned (["pages/doc_page_1.pdf"; "pages/doc_page_2.pdf"],
                    [("pages/doc_page_1.pdf", ["first"]);
                     ("pages/doc_page_2.pdf", ["second"])])).
Proof.
  apply (split_pdf_one_file_per_page 2 (fun _ => "doc")
           (fun d f => d ++ "/" ++ f)%string
           {["doc.pdf" := ["first"; "second"]]} "doc.pdf" "pages"
           ["first"; "second"]); [reflexivity | cbn; lia].
Defined.

Lemma concat_snd_imap_singletons {P} (name : nat -> string) (l : list P) :
  List.concat (map snd (imap (fun i page => (name i, [page])) l)) = l.
Proof.
  revert name. induction l as [|p l IH]; intros name; [done |].
  cbn [imap map snd List.concat app]. f_equal. apply (IH (name ∘ S)).
Qed.

(** X19: merging existing files and then splitting the merged file one page
    per chunk gives back as many files as [merge_pdfs] reported pages, and
    the pages written by the split, in order, are the pages of the inputs in
    the order they were merged. *)
Theorem merge_then_split_roundtrip {P} (fuel : nat) (stem_of : string -> string)
    (join : string -> string -> string) (fs : gmap string (list P))
    (input_paths : list string) (docs : list (list P))
    (merged_path output_dir : string) :
  Forall2 (fun path doc => fs !! path = Some doc) input_paths docs ->
  (List.length (List.concat docs) <= fuel)%nat ->
  exists total fs' output_files written,
    merge_pdfs fs input_paths merged_path = Returned (total, fs')
    /\ split_pdf fuel stem_of join fs' merged_path output_dir 1
       = Some (Returned (output_files, written))
    /\ Z.of_nat (List.length output_files) = total
    /\ List.concat (map snd written) = List.concat docs.
Proof.
  intros Hall Hfuel. unfold merge_pdfs.
  rewrite (merge_loop_all_exist fs input_paths docs Hall). cbn [app Z.add].
  do 4 eexists. split; [reflexivity |].
  unfold split_pdf. rewrite (lookup_insert_eq (M := gmap string)).
  pose proof (split_loop_single_pages join (List.concat docs)
                (stem_of merged_path) output_dir
                fuel 0 1%Z [] [] ltac:(lia) ltac:(lia)) as Hrun.
  change (Z.of_nat 0) with 0%Z in Hrun.
  cbn [drop app Nat.add] in Hrun. rewrite Hrun.
  split; [reflexivity |].
  split.
  - by rewrite length_map, length_imap.
  - apply (concat_snd_imap_singletons
             (fun i => join output_dir
                         (stem_of merged_path ++ "_page_"
                          ++ pretty (Z.of_nat i + 1)%Z ++ ".pdf")%string)).
Qed.

Lemma merge_then_split_roundtrip_witness :
  exists total fs' output_files written,
    merge_pdfs ({["a.pdf" := ["A"]]} ∪ {["b.pdf" := ["B"]]})
               ["a.pdf"; "b.pdf"] "merged.pdf" = Returned (total, fs')
    /\ split_pdf 2 (fun _ => "merged") (fun d f => d ++ "/" ++ f)%string
                 fs' "merged.pdf" "pages" 1
       = Some (Returned (output_files, written))
    /\ Z.of_nat (List.length output_files) = total
    /\ List.concat (map snd written) = List.concat [["A"]; ["B"]].
Proof.
  apply (merge_then_split_roundtrip 2 (fun _ => "merged")
           (fun d f => d ++ "/" ++ f)%string
           ({["a.pdf" := ["A"]]} ∪ {["b.pdf" := ["B"]]})
           ["a.pdf"; "b.pdf"] [["A"]; ["B"]] "merged.pdf" "pages").
  - repeat constructor.
  - cbn. lia.
Defined.

(** ** Word documents *)

Lemma string_append_nil_r (s : string) : (s ++ "")%string = s.
Proof.
  induction s as [|c s IH]; [reflexivity |].
  change (String c (s ++ "") = String c s). by rewrite IH.
Qed.

Lemma str_replace_join (xs : list string) (new : string) :
  str_replace (py_join newline xs) newline new
  = py_join new (map (fun x => str_replace x newline new) xs).
Proof.
  induction xs as [|x [|y rest] IH]; [reflexivity | reflexivity |].
  change (py_join newline (x :: y :: rest))
    with (x ++ newline ++ py_join newline (y :: rest))%string.
  rewrite !str_replace_newline_app, IH.
  replace (str_replace newline newline new) with new; [reflexivity |].
  unfold newline at 1. rewrite str_replace_newline_cons. cbn [Ascii.eqb].
  change (str_replace "" newline new) with "". by rewrite string_append_nil_r.
Qed.


(** ** Alignment of the text rendering of a table *)

Lemma text_join_length {C} (sep : list C) (xs : list (list C)) :
  List.length (text_join sep xs)
  = (sum_list (map (@List.length C) xs)
     + List.length sep * (List.length xs - 1))%nat.
Proof.
  induction xs as [|x [|y rest] IH].
  - cbn. lia.
  - cbn. lia.
  - change (text_join sep (x :: y :: rest))
      with (x ++ sep ++ text_join sep (y :: rest)).
    rewrite !length_app, IH. cbn [map sum_list sum_list_with Datatypes.length].
    rewrite !Nat.sub_succ, !Nat.sub_0_r, (Nat.mul_succ_r _ (List.length rest)).
    unfold id. lia.
Qed.

Lemma ljust_length {C} (chr : ascii -> C) (s : list C) (width : nat) :
  (List.length s <= width)%nat -> List.length (ljust chr s width) = width.
Proof. intros Hs. unfold ljust. rewrite length_app, repeat_length. lia. Qed.

Lemma widen_row_length {C} (row : list (list C)) :
  forall widths j, List.length (widen_row widths j row) = List.length widths.
Proof.
  induction row as [|cell rest IH]; intros widths j; [done |].
  cbn [widen_row]. rewrite IH.
  destruct (j <? List.length widths)%nat; [apply length_insert | done].
Qed.

Lemma widen_row_mono {C} (row : list (list C)) :
  forall widths j k,
    (default 0 (widths !! k) <= default 0 (widen_row widths j row !! k))%nat.
Proof.
  induction row as [|cell rest IH]; intros widths j k; [done |].
  cbn [widen_row]. etrans; [| apply IH].
  destruct (Nat.ltb_spec j (List.length widths)) as [Hj | Hj]; [| done].
  destruct (decide (j = k)) as [-> | Hne].
  - rewrite list_lookup_insert_eq by done. cbn. lia.
  - by rewrite list_lookup_insert_ne.
Qed.

Lemma widen_row_covers {C} (row : list (list C)) :
  forall widths j t cell,
    row !! t = Some cell ->
    (j + t < List.length widths)%nat ->
    (List.length cell <= default 0 (widen_row widths j row !! (j + t)))%nat.
Proof.
  induction row as [|c rest IH]; intros widths j t cell Hcell Hlt; [done |].
  cbn [widen_row].
  destruct (Nat.ltb_spec j (List.length widths)) as [Hj | Hj]; [| lia].
  destruct t as [|t].
  - injection Hcell as ->. rewrite Nat.add_0_r.
    etrans; [| apply widen_row_mono].
    rewrite list_lookup_insert_eq by done. cbn. lia.
  - replace (j + S t)%nat with (S j + t)%nat by lia.
    apply IH; [done |]. rewrite length_insert. lia.
Qed.

Lemma column_widths_length {C} (rows : list (list (list C))) :
  forall widths,
    List.length (foldl (fun ws row => widen_row ws 0 row) widths rows)
    = List.length widths.
Proof.
  induction rows as [|row rows IH]; intros widths; [done |].
  cbn [foldl]. by rewrite IH, widen_row_length.
Qed.

Lemma column_widths_mono {C} (rows : list (list (list C))) :
  forall widths k,
    (default 0 (widths !! k)
     <= default 0 (foldl (fun ws row => widen_row ws 0 row) widths rows !! k))%nat.
Proof.
  induction rows as [|row rows IH]; intros widths k; [done |].
  cbn [foldl]. etrans; [apply (widen_row_mono row widths 0 k) | apply IH].
Qed.

Lemma column_widths_cover {C} (rows : list (list (list C))) :
  forall widths row t cell,
    row ∈ rows ->
    row !! t = Some cell ->
    (t < List.length widths)%nat ->
    (List.length cell
     <= default 0 (foldl (fun ws row => widen_row ws 0 row) widths rows !! t))%nat.
Proof.
  induction rows as [|r rows IH]; intros widths row t cell Hin Hcell Hlt.
  - by apply elem_of_nil in Hin.
  - cbn [foldl]. apply elem_of_cons in Hin as [-> | Hin].
    + etrans; [| apply column_widths_mono].
      by apply (widen_row_covers r widths 0 t cell).
    + eapply IH; [done | done |]. by rewrite widen_row_length.
Qed.

Lemma padded_cells_lengths {C} (chr : ascii -> C) (widths : list nat)
    (cell : nat -> list C) :
  (forall i, (i < List.length widths)%nat ->
             (List.length (cell i) <= default 0 (widths !! i))%nat) ->
  map (@List.length C)
      (map (fun i => ljust chr (cell i) (default 0%nat (widths !! i)))
           (seq 0 (List.length widths)))
  = widths.
Proof.
  intros Hfit. apply list_eq. intros i.
  rewrite !list_lookup_fmap.
  destruct (widths !! i) as [w |] eqn:Hw.
  - assert (Hi : (i < List.length widths)%nat) by (by eapply lookup_lt_Some).
    rewrite (lookup_seq_lt _ _ _ Hi). cbn [fmap option_fmap option_map Nat.add].
    rewrite ljust_length; [by rewrite Hw | by apply Hfit].
  - apply lookup_ge_None in Hw. by rewrite lookup_seq_ge.
Qed.

Lemma imap_as_seq {A B} (f : nat -> A -> B) (d : A) (l : list A) :
  imap f l = map (fun i => f i (default d (l !! i))) (seq 0 (List.length l)).
Proof.
  apply list_eq. intros i. rewrite list_lookup_imap, list_lookup_fmap.
  destruct (l !! i) as [x |] eqn:Hx.
  - rewrite (lookup_seq_lt _ _ _ (lookup_lt_Some _ _ _ Hx)).
    cbn. by rewrite Hx.
  - apply lookup_ge_None in Hx. by rewrite lookup_seq_ge.
Qed.

(** X21: in the text rendering of an extracted table, the header line, the
    separator line and every row line have the same length, the sum of the
    column widths plus three characters between adjacent columns: each
    column is at least 8 characters wide and at least as wide as its header
    and as every cell found in it, so [ljust] pads every cell to the column
    width; a row with fewer cells than headers is completed with blank
    cells, and there is one column per header. *)
Theorem table_lines_aligned {C} (chr : ascii -> C) (tbl : @ExtractedTable C) :
  let widths := column_widths (et_headers tbl) (et_rows tbl) in
  exists title header_line separator row_lines,
    table_lines chr tbl = title :: header_line :: separator :: row_lines
    /\ List.length row_lines = List.length (et_rows tbl)
    /\ List.length widths = List.length (et_headers tbl)
    /\ Forall (fun w => (8 <= w)%nat) widths
    /\ Forall (fun line =>
                 List.length line
                 = (sum_list widths + 3 * (List.length widths - 1))%nat)
              (header_line :: separator :: row_lines).
Proof.
  intros widths.
  assert (Hlen : List.length widths = List.length (et_headers tbl)).
  { unfold widths, column_widths. by rewrite column_widths_length, length_map. }
  assert (Hinit : forall i h, et_headers tbl !! i = Some h ->
    (Nat.max (List.length h) 8 <= default 0 (widths !! i))%nat).
  { intros i h Hh. unfold widths, column_widths.
    etrans; [| apply column_widths_mono].
    by rewrite list_lookup_fmap, Hh. }
  do 4 eexists. split; [reflexivity |]. fold widths.
  split_and!.
  - by rewrite length_map.
  - exact Hlen.
  - apply Forall_lookup_2. intros i w Hw.
    destruct (lookup_lt_is_Some_2 (et_headers tbl) i) as [h Hh].
    { rewrite <- Hlen. by eapply lookup_lt_Some. }
    specialize (Hinit i h Hh). rewrite Hw in Hinit. cbn in Hinit. lia.
  - constructor; [| constructor].
    + rewrite text_join_length.
      rewrite (imap_as_seq _ [] (et_headers tbl)), <- Hlen.
      rewrite (padded_cells_lengths chr widths
                 (fun i => default [] (et_headers tbl !! i))).
      * rewrite length_map, length_seq. reflexivity.
      * intros i Hi.
        destruct (lookup_lt_is_Some_2 (et_headers tbl) i) as [h Hh]; [lia |].
        rewrite Hh. cbn [default from_option id]. specialize (Hinit i h Hh). lia.
    + rewrite text_join_length, map_map.
      rewrite (map_ext _ id), map_id, length_map; [reflexivity |].
      intros w. apply repeat_length.
    + apply Forall_forall. intros line Hline.
      apply list_elem_of_fmap in Hline as (row & -> & Hrow).
      rewrite text_join_length, <- Hlen.
      rewrite (padded_cells_lengths chr widths
                 (fun i => if (i <? List.length row)%nat
                           then default [] (row !! i) else [])).
      * rewrite length_map, length_seq. reflexivity.
      * intros i Hi.
        destruct (Nat.ltb_spec i (List.length row)) as [Hrowi | Hrowi]; [| cbn; lia].
        destruct (lookup_lt_is_Some_2 row i Hrowi) as [cell Hcell].
        rewrite Hcell. cbn [default from_option id].
        unfold widths, column_widths.
        eapply column_widths_cover; [exact Hrow | exact Hcell |].
        rewrite length_map. lia.
Qed.

(** ** Extracted tables *)

Lemma Forall_concat_imap {A B} (P : B -> Prop) (f : nat -> A -> list B) (l : list A) :
  (forall i x, l !! i = Some x -> Forall P (f i x)) ->
  Forall P (List.concat (imap f l)).
Proof.
  revert f. induction l as [|x l IH]; intros f Hf; cbn [imap List.concat].
  - constructor.
  - apply Forall_app. split; [by apply (Hf 0%nat) |].
    apply IH. intros i y Hy. by apply (Hf (S i)).
Qed.

(** X22: for an existing file, [extract_tables] returns, and every table
    it returns has at least one data row (raw tables with fewer than two
    rows are skipped), a 1-based page number within the page count and a
    1-based index; when a non-empty page filter is given only tables of the
    listed pages are returned, while an empty filter list is treated like
    no filter at all. *)
Theorem extract_tables_nonempty {C} (strip : list C -> list C)
    (fs : gmap string (list (list (list (list (option (list C)))))))
    (pdf_path : string) (pdf_pages : list (list (list (list (option (list C))))))
    (pages : option (list Z)) :
  fs !! pdf_path = Some pdf_pages ->
  exists tables,
    extract_tables strip fs pdf_path pages = Returned tables
    /\ Forall (fun t =>
                 et_rows t <> []
                 /\ (1 <= et_page t <= Z.of_nat (List.length pdf_pages))%Z
                 /\ (1 <= et_index t)%Z
                 /\ match pages with
                    | Some (p :: ps) => et_page t ∈ p :: ps
                    | _ => True
                    end)
              tables
    /\ extract_tables strip fs pdf_path (Some [])
       = extract_tables strip fs pdf_path None.
Proof.
  intros Hfs. unfold extract_tables. rewrite Hfs.
  eexists. split; [reflexivity |]. split; [| reflexivity].
  apply Forall_concat_imap. intros i raw_tables Hi.
  assert (Hpage : (1 <= Z.of_nat i + 1 <= Z.of_nat (List.length pdf_pages))%Z).
  { apply lookup_lt_Some in Hi. lia. }
  assert (Htables :
    Forall (fun t : @ExtractedTable C =>
              et_rows t <> []
              /\ (1 <= et_page t <= Z.of_nat (List.length pdf_pages))%Z
              /\ (1 <= et_index t)%Z
              /\ et_page t = (Z.of_nat i + 1)%Z)
           (page_tables strip (Z.of_nat i + 1) raw_tables)).
  { unfold page_tables. apply Forall_concat_imap.
    intros k raw _.
    destruct raw as [|r0 [|r1 raw]]; cbn; constructor; [| constructor].
    cbn. split_and!; [done | lia | lia | lia | done]. }
  destruct pages as [[|p ps] |].
  - cbn [truthy truthy_list andb].
    eapply Forall_impl; [exact Htables |]. intros t (? & ? & ? & _). done.
  - cbn [truthy truthy_list andb].
    destruct (bool_decide_reflect ((Z.of_nat i + 1)%Z ∈ p :: ps)) as [Hin | Hnin];
      cbn [negb]; [| constructor].
    eapply Forall_impl; [exact Htables |].
    intros t (? & ? & ? & Ht). rewrite Ht. done.
  - eapply Forall_impl; [exact Htables |]. intros t (? & ? & ? & _). done.
Qed.

Lemma extract_tables_nonempty_witness :
  exists tables,
    extract_tables (fun s : list ascii => s)
      {["t.pdf" := [[ [[Some ["I"%char; "D"%char]]; [Some ["1"%char]]];
                      [[Some ["x"%char]]] ]]]}
      "t.pdf" (Some [1%Z]) = Returned tables
    /\ Forall (fun t => et_rows t <> [] /\ et_page t ∈ [1%Z]) tables.
Proof.
  destruct (extract_tables_nonempty (fun s : list ascii => s)
              {["t.pdf" := [[ [[Some ["I"%char; "D"%char]]; [Some ["1"%char]]];
                              [[Some ["x"%char]]] ]]]}
              "t.pdf"
              [[ [[Some ["I"%char; "D"%char]]; [Some ["1"%char]]];
                 [[Some ["x"%char]]] ]]
              (Some [1%Z]))
    as (tables & Hrun & Hall & _); [reflexivity |].
  exists tables. split; [exact Hrun |].
  eapply Forall_impl; [exact Hall |]. intros t (? & _ & _ & ?). by split.
Defined.
